(** * jdy_sdk: token lifecycle and request-retry core

    A shallow embedding of [jdy_sdk.py]: the session storages
    ([SessionStorage], [MemoryStorage], [RedisStorage]), the client's
    token manager ([access_token], [fetch_access_token],
    [_fetch_access_token]) and its request executor ([_request],
    [_handle_result]).

    Conventions of the embedding.
    - Decoded JSON and the Python values the client handles are [pyval];
      JSON numbers are Python ints ([Z]); fractional numbers are outside
      the model.
    - A Python call either returns or raises: [outcome].  Stateful code is
      a function of the [world] (the client's mutable fields, the log of
      HTTP calls made, the number of clock readings) that returns an
      [outcome] and the world it leaves behind: mutations made before an
      exception stay.
    - The HTTP server and the clock are the environment [env]; the server
      answers a call knowing every call made before it.
    - A float is an IEEE-754 binary64, with the arithmetic of the standard
      library's [SpecFloat].  [time.time()] gives a float, which the clock
      holds as the rational number it denotes; [int()] truncates it. *)

From stdpp Require Import gmap strings list.
From Stdlib Require Import Ascii QArith SpecFloat.

#[local] Set Warnings "-register-all".
#[local] Open Scope Z_scope.

(** ** Python values *)

Inductive pyval :=
| PNone
| PBool (b : bool)
| PInt (z : Z)
| PStr (s : string)
| PList (l : list pyval)
| PDict (d : gmap string pyval).

(** The message of an exception: a value, or [str(v)] of a value (left
    symbolic: the rendering of a dict is Python's business). *)
Inductive pymsg :=
| Msg (v : pyval)
| StrOf (v : pyval).

Inductive exn :=
| JDYClientException (errcode : pyval) (errmsg : pymsg)
| NotImplementedError
| AttributeError
| KeyError
| TypeError
| ValueError
| RequestException      (* raised by the transport call itself *)
| JSONDecodeError       (* raised by [Response.json()] *)
| OverflowError         (* an int too large to convert to float *)
| RecursionError.       (* the call stack (fuel) is exhausted *)

Inductive outcome (A : Type) :=
| Ok (a : A)
| Raise (e : exn).
Arguments Ok {A} a.
Arguments Raise {A} e.

#[global] Instance outcome_ret : MRet outcome := fun _ a => Ok a.
#[global] Instance outcome_bind : MBind outcome := fun _ _ f o =>
  match o with
  | Ok a => f a
  | Raise e => Raise e
  end.

(** ** Builtins *)

(** [bool(v)]: the truth value of [if v:] and [not v]. *)
Definition py_truthy (v : pyval) : bool :=
  match v with
  | PNone => false
  | PBool b => b
  | PInt z => negb (z =? 0)
  | PStr s => negb (String.eqb s "")
  | PList l => match l with [] => false | _ => true end
  | PDict d => negb (bool_decide (d = ∅))
  end.

(** [v != 0] ([False == 0] holds in Python). *)
Definition py_ne_zero (v : pyval) : bool :=
  match v with
  | PInt z => negb (z =? 0)
  | PBool b => b
  | _ => true
  end.

(** [v == n] for an int [n] ([True == 1], [False == 0]). *)
Definition py_eq_int (v : pyval) (n : Z) : bool :=
  match v with
  | PInt z => z =? n
  | PBool b => Z.b2z b =? n
  | _ => false
  end.

Fixpoint is_substring (p s : string) : bool :=
  String.prefix p s ||
  match s with
  | EmptyString => false
  | String _ s' => is_substring p s'
  end.

(** [c] occurs in [s]. *)
Fixpoint has_char (c : Ascii.ascii) (s : string) : bool :=
  match s with
  | EmptyString => false
  | String a s' => Ascii.eqb a c || has_char c s'
  end.

(** [key in v] for a str [key]. *)
Definition py_contains (key : string) (v : pyval) : outcome bool :=
  match v with
  | PDict d => Ok (bool_decide (is_Some (d !! key)))
  | PList l =>
      Ok (existsb (fun x => match x with PStr s => String.eqb s key | _ => false end) l)
  | PStr s => Ok (is_substring key s)
  | _ => Raise TypeError
  end.

(** [v[key]] for a str [key]. *)
Definition py_getitem (v : pyval) (key : string) : outcome pyval :=
  match v with
  | PDict d => match d !! key with Some x => Ok x | None => Raise KeyError end
  | _ => Raise TypeError
  end.

(** [v[key] = x] for a str [key]. *)
Definition py_setitem (v : pyval) (key : string) (x : pyval) : outcome pyval :=
  match v with
  | PDict d => Ok (PDict (<[key := x]> d))
  | _ => Raise TypeError
  end.

(** [v.get(key, dflt)]. *)
Definition py_get (v : pyval) (key : string) (dflt : pyval) : outcome pyval :=
  match v with
  | PDict d => Ok (default dflt (d !! key))
  | _ => Raise AttributeError
  end.

(** [v.request] on a decoded JSON value: none of dict, list, str, int,
    bool and None has such an attribute. *)
Definition py_getattr_request (v : pyval) : outcome pyval :=
  Raise AttributeError.

(** [int(v)]; what [int()] makes of a str is Python's: [int_of_str]. *)
Definition py_int (int_of_str : string -> option Z) (v : pyval) : outcome Z :=
  match v with
  | PInt z => Ok z
  | PBool b => Ok (Z.b2z b)
  | PStr s => match int_of_str s with Some z => Ok z | None => Raise ValueError end
  | _ => Raise TypeError
  end.

(** [int(t)] for a float [t]: truncation towards zero. *)
Definition int_of_time (t : Q) : Z := Z.quot (Qnum t) (Zpos (Qden t)).

(** The binary64 nearest to [z], ties to even; an infinity beyond the
    largest float. *)
Definition float_of_Z (z : Z) : spec_float := binary_normalize 53 1024 z 0 false.

(** The conversion arithmetic applies to an int operand beside a float:
    [OverflowError] for an int too large. *)
Definition py_float (n : Z) : outcome spec_float :=
  match float_of_Z n with
  | S754_infinity _ => Raise OverflowError
  | f => Ok f
  end.

(** The float a clock reading [t] is: the binary64 that denotes [t] (for a
    rational that is no binary64, the nearest, ties to even).  The
    quotient is taken with more than 1100 binary places and a sticky last
    bit, so that the one rounding of [binary_normalize] is that of [t]. *)
Definition float_of_time (t : Q) : spec_float :=
  let d := Zpos (Qden t) in
  let k := 1100 + Z.log2 d in
  let a := Z.abs (Qnum t) * 2 ^ k in
  let m := 2 * (a / d) + (if a mod d =? 0 then 0 else 1) in
  binary_normalize 53 1024 (if Qnum t <? 0 then - m else m) (- k - 1) false.

(** [n - t] for an int [n] and a float [t]: [n] is converted, the
    difference is rounded. *)
Definition py_sub_int_float (n : Z) (t : Q) : outcome spec_float :=
  match py_float n with
  | Ok f => Ok (SFsub 53 1024 f (float_of_time t))
  | Raise err => Raise err
  end.

(** [x > n] for a float [x] and an int [n] that a float holds exactly. *)
Definition py_float_gt (x : spec_float) (n : Z) : bool := SFltb (float_of_Z n) x.

(** [n + v] for an int [n]. *)
Definition py_add_int (n : Z) (v : pyval) : outcome Z :=
  match v with
  | PInt z => Ok (n + z)
  | PBool b => Ok (n + Z.b2z b)
  | _ => Raise TypeError
  end.

(** [s.startswith(('http://', 'https://'))]. *)
Definition startswith_http (s : string) : bool :=
  String.prefix "http://" s || String.prefix "https://" s.

(** ** Session storages *)

(** The storage contract: the three methods a session object answers.
    [storage_get s key dflt] reads; [storage_set] and [storage_delete]
    return the storage they leave behind. *)
Class SessionStorage (Store : Type) := {
  storage_get : Store -> string -> pyval -> outcome pyval;
  storage_set : Store -> string -> pyval -> pyval -> outcome Store;
  storage_delete : Store -> string -> outcome Store;
}.

(** The methods the base class gives every storage, with the default
    arguments they pass on ([default=None], [ttl=None]). *)
Definition __getitem__ `{SessionStorage Store} (s : Store) (key : string) : outcome pyval :=
  _ ← storage_get s key PNone;
  mret PNone.

Definition __setitem__ `{SessionStorage Store} (s : Store) (key : string)
  (value : pyval) : outcome Store :=
  storage_set s key value PNone.

Definition __delitem__ `{SessionStorage Store} (s : Store) (key : string)
  : outcome Store :=
  storage_delete s key.

(** The base class itself: every method raises. *)
Inductive AbstractStorage := abstract_storage.

#[global] Instance AbstractStorage_storage : SessionStorage AbstractStorage := {|
  storage_get _ _ _ := Raise NotImplementedError;
  storage_set _ _ _ _ := Raise NotImplementedError;
  storage_delete _ _ := Raise NotImplementedError;
|}.

(** [to_text] on what redis hands back, a byte string read as its text. *)
Definition to_text (value : string) : string :=
  if String.eqb value "" then "" else value.

Module MemoryStorage.

Record t := Build { _data : gmap string pyval }.

Definition __init__ : t := {| _data := ∅ |}.

Definition get (self : t) (key : string) (dflt : pyval) : outcome pyval :=
  Ok (default dflt (_data self !! key)).

Definition set (self : t) (key : string) (value ttl : pyval) : outcome t :=
  match value with
  | PNone => Ok self
  | _ => Ok {| _data := <[key := value]> (_data self) |}
  end.

Definition delete (self : t) (key : string) : outcome t :=
  Ok {| _data := base.delete key (_data self) |}.

End MemoryStorage.

#[global] Instance MemoryStorage_storage : SessionStorage MemoryStorage.t := {|
  storage_get := MemoryStorage.get;
  storage_set := MemoryStorage.set;
  storage_delete := MemoryStorage.delete;
|}.

(** The redis client a [RedisStorage] wraps: any object with [get], [set]
    and [delete]. [redis_get] gives [None] for a missing key. *)
Class RedisClient (R : Type) := {
  redis_get : R -> string -> outcome (option string);
  redis_set : R -> string -> string -> pyval -> outcome R;
  redis_delete : R -> string -> outcome R;
}.

(** [json.dumps] and [json.loads]. *)
Class JsonCodec := {
  json_dumps : pyval -> outcome string;
  json_loads : string -> outcome pyval;
}.

Module RedisStorage.
Section WithRedis.
Context {R : Type} `{RedisClient R} `{JsonCodec}.

Record t := Build { redis : R; prefix : string }.

Definition key_name (self : t) (key : string) : string :=
  prefix self +:+ ":" +:+ key.

Definition get (self : t) (key : string) (dflt : pyval) : outcome pyval :=
  let key := key_name self key in
  value ← redis_get (redis self) key;
  match value with
  | None => Ok dflt
  | Some value => json_loads (to_text value)
  end.

Definition set (self : t) (key : string) (value ttl : pyval) : outcome t :=
  match value with
  | PNone => Ok self
  | _ =>
      let key := key_name self key in
      value ← json_dumps value;
      r ← redis_set (redis self) key value ttl;
      mret {| redis := r; prefix := prefix self |}
  end.

Definition delete (self : t) (key : string) : outcome t :=
  let key := key_name self key in
  r ← redis_delete (redis self) key;
  mret {| redis := r; prefix := prefix self |}.

End WithRedis.
Arguments t R : clear implicits.
End RedisStorage.

#[global] Instance RedisStorage_storage `{RedisClient R} `{JsonCodec}
  : SessionStorage (RedisStorage.t R) := {|
  storage_get := RedisStorage.get;
  storage_set := RedisStorage.set;
  storage_delete := RedisStorage.delete;
|}.

(** ** The transport, the clock and the client's state *)

(** The two calls the client makes on its HTTP session:
    [_http.get(url=, params=)] and [_http.request(method=, url=, params=,
    json=)]. *)
Inductive event :=
| HttpGet (url : string) (params : pyval)
| HttpRequest (method url : string) (params : pyval) (json : option pyval).

(** What a call gives: the call itself fails, or a response whose
    [raise_for_status()] passes iff [status_ok] and whose [json()] gives
    [body], raising when there is none. *)
Inductive http_result :=
| ConnectionFailed
| Response (status_ok : bool) (body : option pyval).

(** Everything the code does not decide: the server, which answers a call
    knowing the calls made before it; the clock, read for the n-th time;
    and what [int()] makes of a str. *)
Record env := Env {
  server : list event -> event -> http_result;
  clock : nat -> Q;
  int_of_str : string -> option Z;
}.

(** The configuration a client is constructed with. *)
Record JDYClient := {
  client_id : string;
  client_secret : string;
  username : string;
  password : string;
  account_id : pyval;
  db_id : pyval;
  timeout : pyval;
  auto_retry : bool;
}.

(** What changes while a client runs: its session storage, its
    [expires_at] ([None] until a fetch sets it), the HTTP calls made so far
    (oldest first) and the number of clock readings made. *)
Record world (Store : Type) := World {
  session : Store;
  expires_at : option Z;
  http_log : list event;
  ticks : nat;
}.
Arguments World {Store}.
Arguments session {Store}.
Arguments expires_at {Store}.
Arguments http_log {Store}.
Arguments ticks {Store}.

(** The keyword arguments of [_request] this model follows. *)
Record kwargs := {
  kw_params : option pyval;
  kw_json : option pyval;
  kw_api_base_url : option string;
  kw_result_processor : option (pyval -> pyval);
}.

Definition M (Store A : Type) : Type := world Store -> outcome A * world Store.

#[global] Instance M_ret {Store} : MRet (M Store) := fun _ a w => (Ok a, w).
#[global] Instance M_bind {Store} : MBind (M Store) := fun _ _ f m w =>
  match m w with
  | (Ok a, w') => f a w'
  | (Raise e, w') => (Raise e, w')
  end.

Definition raise {Store A} (e : exn) : M Store A := fun w => (Raise e, w).

(** A computation that does not touch the world. *)
Definition pure {Store A} (o : outcome A) : M Store A := fun w => (o, w).

Definition API_BASE_URL : string := "https://api.kingdee.com".
Definition GET_ACCESS_TOKEN : string := "/auth/user/access_token".
Definition VOUCHERS : string := "/jdyaccouting/voucherlist".
Definition ACCOUNTS : string := "/jdyaccouting/account".
Definition INVALID_CREDENTIAL : Z := 4010.

Definition access_token_key (self : JDYClient) : string :=
  client_id self +:+ "_" +:+ username self +:+ "_access_token".

Section Client.
Context {Store : Type} `{SessionStorage Store} (E : env).

#[local] Abbreviation M := (M Store).

(** [time.time()]. *)
Definition time_time : M Q := fun w =>
  (Ok (clock E (ticks w)),
   {| session := session w; expires_at := expires_at w;
      http_log := http_log w; ticks := Datatypes.S (ticks w) |}).

(** One HTTP call: logged, then answered by the server. *)
Definition http_call (ev : event) : M (bool * option pyval) := fun w =>
  let w' := {| session := session w; expires_at := expires_at w;
               http_log := http_log w ++ [ev]; ticks := ticks w |} in
  match server E (http_log w) ev with
  | ConnectionFailed => (Raise RequestException, w')
  | Response status_ok body => (Ok (status_ok, body), w')
  end.

(** [res.json()]. *)
Definition res_json (body : option pyval) : outcome pyval :=
  match body with
  | Some v => Ok v
  | None => Raise JSONDecodeError
  end.

Definition session_get (key : string) (dflt : pyval) : M pyval := fun w =>
  (storage_get (session w) key dflt, w).

Definition session_set (key : string) (value ttl : pyval) : M unit := fun w =>
  match storage_set (session w) key value ttl with
  | Ok s => (Ok tt, {| session := s; expires_at := expires_at w;
                       http_log := http_log w; ticks := ticks w |})
  | Raise e => (Raise e, w)
  end.

Definition get_expires_at : M (option Z) := fun w => (Ok (expires_at w), w).

Definition set_expires_at (e : Z) : M unit := fun w =>
  (Ok tt, {| session := session w; expires_at := Some e;
             http_log := http_log w; ticks := ticks w |}).

(** [JDYClient.__init__] on a given configuration and session storage (the
    caller's, or a new [MemoryStorage]): [expires_at] starts as [None]; a
    truthy [access_token] is stored under the client's key. *)
Definition __init__ (self : JDYClient) (session : Store) (access_token : pyval)
  : outcome (world Store) :=
  let w := {| session := session; expires_at := None; http_log := []; ticks := 0 |} in
  if py_truthy access_token then
    match session_set (access_token_key self) access_token PNone w with
    | (Ok _, w') => Ok w'
    | (Raise e, _) => Raise e
    end
  else Ok w.

Definition _fetch_access_token (self : JDYClient) (url : string) (params : pyval)
  : M pyval :=
  res ← http_call (HttpGet url params);
  if negb res.1 then raise (JDYClientException PNone (Msg PNone)) else
  result ← pure (res_json res.2);
  has_errcode ← pure (py_contains "errcode" result);
  failed ← (if has_errcode : bool
            then errcode ← pure (py_getitem result "errcode");
                 mret (py_ne_zero errcode)
            else mret false);
  if failed : bool then
    errcode ← pure (py_getitem result "errcode");
    description ← pure (py_getitem result "description");
    raise (JDYClientException errcode (Msg description))
  else
  has_data ← pure (py_contains "data" result);
  expires_in ← (if has_data : bool
                then data ← pure (py_getitem result "data");
                     has_expires_in ← pure (py_contains "expires_in" data);
                     if has_expires_in : bool
                     then data ← pure (py_getitem result "data");
                          pure (py_getitem data "expires_in")
                     else mret (PInt 7200)
                else mret (PInt 7200));
  data ← pure (py_getitem result "data");
  token ← pure (py_getitem data "access_token");
  _ ← session_set (access_token_key self) token expires_in;
  now ← time_time;
  expires ← pure (py_add_int (int_of_time now) expires_in);
  _ ← set_expires_at expires;
  mret result.

Definition fetch_access_token (self : JDYClient) : M unit :=
  let params :=
    PDict (<["username" := PStr (username self)]>
          (<["password" := PStr (password self)]>
          (<["client_id" := PStr (client_id self)]>
          (<["client_secret" := PStr (client_secret self)]> ∅)))) in
  _ ← _fetch_access_token self (API_BASE_URL +:+ GET_ACCESS_TOKEN) params;
  mret tt.

(** [self.expires_at - timestamp > 60]: an int minus a float. *)
Definition more_than_60s_left (e : Z) (timestamp : Q) : outcome bool :=
  match py_sub_int_float e timestamp with
  | Ok remaining => Ok (py_float_gt remaining 60)
  | Raise err => Raise err
  end.

(** The [access_token] property. *)
Definition access_token (self : JDYClient) : M pyval :=
  token ← session_get (access_token_key self) PNone;
  cached ← (if py_truthy token
            then e ← get_expires_at;
                 match e with
                 | None => mret true            (* [not self.expires_at] *)
                 | Some e =>
                     if e =? 0 then mret true   (* [not self.expires_at] *)
                     else timestamp ← time_time;
                          pure (more_than_60s_left e timestamp)
                 end
            else mret false);
  if cached : bool then mret token
  else
    _ ← fetch_access_token self;
    session_get (access_token_key self) PNone.

(** [JDYClient._handle_result]; [_request] is the method it calls back.
    [result] is [res] itself (one object), so the update of ["code"] shows
    in both. *)
Definition _handle_result
  (_request : string -> string -> bool -> kwargs -> M pyval)
  (self : JDYClient) (res : pyval) (method url : string)
  (result_processor : option (pyval -> pyval)) (auto_retry_arg : bool)
  (kw : kwargs) : M pyval :=
  has_code ← pure (py_contains "code" res);
  result ← (if has_code : bool
            then code ← pure (py_getitem res "code");
                 code ← pure (py_int (int_of_str E) code);
                 pure (py_setitem res "code" (PInt code))
            else mret res);
  has_code ← pure (py_contains "code" result);
  failed ← (if has_code : bool
            then code ← pure (py_getitem result "code");
                 mret (py_ne_zero code)
            else mret false);
  if failed : bool then
    errcode ← pure (py_getitem result "code");
    errmsg ← pure (py_get result "msg" errcode);
    if auto_retry self && auto_retry_arg && py_eq_int errcode INVALID_CREDENTIAL then
      _ ← fetch_access_token self;
      token ← session_get (access_token_key self) PNone;
      params ← pure (match kw_params kw with
                     | Some p => py_setitem p "access_token" token
                     | None => Raise KeyError
                     end);
      _request method url false
        {| kw_params := Some params; kw_json := kw_json kw;
           kw_api_base_url := kw_api_base_url kw;
           kw_result_processor := result_processor |}
    else
      _ ← pure (py_getattr_request result);
      raise (JDYClientException errcode (Msg errmsg))
  else
    mret (match result_processor with
          | None => result
          | Some f => f result
          end).

(** [JDYClient._request]. [fuel] bounds the depth of the calls:
    [_request] calls [_handle_result], which may call [_request]. *)
Fixpoint _request (fuel : nat) (self : JDYClient) (method url_or_endpoint : string)
  (auto_retry_arg : bool) (kw : kwargs) : M pyval :=
  match fuel with
  | O => raise RecursionError
  | Datatypes.S fuel =>
      let relative := negb (startswith_http url_or_endpoint) in
      let url :=
        if relative
        then default API_BASE_URL (kw_api_base_url kw) +:+ url_or_endpoint
        else url_or_endpoint in
      let api_base_url := if relative then None else kw_api_base_url kw in
      let params := default (PDict ∅) (kw_params kw) in
      params ← match params with
               | PDict d =>
                   if bool_decide (is_Some (d !! "access_token"))
                   then mret params
                   else token ← access_token self;
                        mret (PDict (<["access_token" := token]> d))
               | _ => mret params
               end;
      let result_processor := kw_result_processor kw in
      res ← match api_base_url with
            | Some _ => raise TypeError   (* an argument the transport does not take *)
            | None => http_call (HttpRequest method url params (kw_json kw))
            end;
      if negb res.1 then raise (JDYClientException PNone (Msg PNone)) else
      res ← pure (res_json res.2);
      has_code ← pure (py_contains "code" res);
      if negb has_code then raise (JDYClientException PNone (StrOf res)) else
      _handle_result (_request fuel self) self res method url result_processor
        auto_retry_arg
        {| kw_params := Some params; kw_json := kw_json kw;
           kw_api_base_url := api_base_url; kw_result_processor := None |}
  end.

(** The depth the resource methods are run with. *)
Definition call_depth : nat := 1000.

Definition accounting_get_accounts (self : JDYClient) : M pyval :=
  _request call_depth self "get" ACCOUNTS true
    {| kw_params := Some (PDict (<["sid" := account_id self]>
                                 (<["dbId" := db_id self]> ∅)));
       kw_json := None; kw_api_base_url := None; kw_result_processor := None |}.

Definition accounting_get_voucher_list (self : JDYClient) (from_period to_period : pyval)
  : M pyval :=
  _request call_depth self "post" VOUCHERS true
    {| kw_params := Some (PDict (<["sid" := account_id self]>
                                 (<["dbId" := db_id self]> ∅)));
       kw_json := Some (PDict (<["fromPeriod" := from_period]>
                               (<["toPeriod" := to_period]> ∅)));
       kw_api_base_url := None; kw_result_processor := None |}.

End Client.

(** ** Traces

    What a computation adds to the log of HTTP calls. *)

Definition is_request (ev : event) : bool :=
  match ev with
  | HttpRequest _ _ _ _ => true
  | HttpGet _ _ => false
  end.

(** The resource calls and the token fetches among [tr]. *)
Definition requests (tr : list event) : nat :=
  length (List.filter is_request tr).

Definition fetches (tr : list event) : nat :=
  length (List.filter (fun ev => negb (is_request ev)) tr).

(** Whatever the world, [m] adds to the log a trace that satisfies [P]. *)
Definition emits {Store A : Type} (P : list event -> Prop) (m : M Store A) : Prop :=
  forall w, exists tr, http_log (m w).2 = http_log w ++ tr /\ P tr.

(** [m] makes no HTTP call. *)
Definition silent {Store A : Type} (m : M Store A) : Prop :=
  forall w, http_log (m w).2 = http_log w.

(** At most [r] resource calls and [f] token fetches. *)
Definition at_most (r f : nat) (tr : list event) : Prop :=
  (requests tr <= r)%nat /\ (fetches tr <= f)%nat.


(** The world after the HTTP call [ev]. *)
Definition logged {Store : Type} (ev : event) (w : world Store) : world Store :=
  {| session := session w; expires_at := expires_at w;
     http_log := http_log w ++ [ev]; ticks := ticks w |}.

(** The call of the credential exchange. *)
Definition token_call (self : JDYClient) : event :=
  HttpGet (API_BASE_URL +:+ GET_ACCESS_TOKEN)
    (PDict (<["username" := PStr (username self)]>
           (<["password" := PStr (password self)]>
           (<["client_id" := PStr (client_id self)]>
           (<["client_secret" := PStr (client_secret self)]> ∅))))).

(** The getter called [n] times in a row: what each call gave, and the
    world after the last. *)
Fixpoint access_token_times {Store : Type} `{SessionStorage Store} (E : env)
  (n : nat) (self : JDYClient) (w : world Store)
  : list (outcome pyval) * world Store :=
  match n with
  | O => ([], w)
  | Datatypes.S n =>
      let r := access_token E self w in
      let rs := access_token_times E n self r.2 in
      (r.1 :: rs.1, rs.2)
  end.

(** ** Scenarios

    Concrete clients, storages and servers on which the statements below
    are run. *)

Definition mk_client (cid user : string) (retry : bool) : JDYClient :=
  {| client_id := cid; client_secret := "secret"; username := user;
     password := "pw"; account_id := PStr "A"; db_id := PStr "B";
     timeout := PNone; auto_retry := retry |}.

Definition alice : JDYClient := mk_client "app" "alice" true.

(** Two clients with distinct (client_id, username) pairs. *)
Definition client_ab_c : JDYClient := mk_client "a_b" "c" true.
Definition client_a_bc : JDYClient := mk_client "a" "b_c" true.

(** A memory storage holding the token ["T1"] under [alice]'s key. *)
Definition store_T1 : MemoryStorage.t :=
  {| MemoryStorage._data := {[ access_token_key alice := PStr "T1" ]} |}.

(** The replies of a server. *)
Definition token_reply (token : string) : pyval :=
  PDict (<["errcode" := PInt 0]>
        (<["data" := PDict (<["access_token" := PStr token]> ∅)]> ∅)).

Definition denied_reply : pyval :=
  PDict (<["errcode" := PInt 40001]>
        (<["description" := PStr "bad password"]> ∅)).

Definition payload : pyval :=
  PDict (<["code" := PInt 0]> (<["items" := PList [PStr "1001"]]> ∅)).

Definition failure_reply (code : Z) : pyval :=
  PDict (<["code" := PInt code]> (<["msg" := PStr "boom"]> ∅)).

(** A server that grants [token] and answers every resource call with
    [reply]. *)
Definition serve (token : string) (reply : pyval) (log : list event) (ev : event)
  : http_result :=
  match ev with
  | HttpGet _ _ => Response true (Some (token_reply token))
  | HttpRequest _ _ _ _ => Response true (Some reply)
  end.

(** A server that refuses the credentials. *)
Definition serve_denied (log : list event) (ev : event) : http_result :=
  match ev with
  | HttpGet _ _ => Response true (Some denied_reply)
  | HttpRequest _ _ _ _ => Response true (Some payload)
  end.

(** A server that rejects the token of every resource call made before
    a credential exchange, and answers the later ones. *)
Definition serve_expired (log : list event) (ev : event) : http_result :=
  match ev with
  | HttpGet _ _ => Response true (Some (token_reply "T2"))
  | HttpRequest _ _ _ _ =>
      if (0 <? fetches log)%nat
      then Response true (Some payload)
      else Response true (Some (failure_reply 4010))
  end.

(** The accounts call of [alice], carrying [token]. *)
Definition accounts_call (token : string) : event :=
  HttpRequest "get" (API_BASE_URL +:+ ACCOUNTS)
    (PDict (<["access_token" := PStr token]>
           (<["sid" := PStr "A"]> (<["dbId" := PStr "B"]> ∅))))
    None.

(** The keyword arguments [_handle_result] gets for that call. *)
Definition accounts_kwargs (token : string) : kwargs :=
  {| kw_params := Some (PDict (<["access_token" := PStr token]>
                              (<["sid" := PStr "A"]> (<["dbId" := PStr "B"]> ∅))));
     kw_json := None; kw_api_base_url := None; kw_result_processor := None |}.

(** An environment with the given server; the clock stands at 1000.5 s. *)
Definition env_with (srv : list event -> event -> http_result) : env :=
  {| server := srv; clock := fun _ => (2001 # 2)%Q; int_of_str := fun _ => None |}.

(** [alice]'s world with ["T1"] cached and [expires_at] as given. *)
Definition world_T1 (e : option Z) : world MemoryStorage.t :=
  {| session := store_T1; expires_at := e; http_log := []; ticks := 0 |}.

(** ** A redis client for the scenarios

    What the storage needs of the redis client it wraps: a key that was
    set reads back, other keys are left alone, a deleted key is gone. *)
Class RedisLaws (R : Type) `{RedisClient R} : Prop := {
  redis_get_set : forall (r r' : R) (k v : string) (ex : pyval),
    redis_set r k v ex = Ok r' -> redis_get r' k = Ok (Some v);
  redis_get_set_ne : forall (r r' : R) (k k' v : string) (ex : pyval),
    redis_set r k v ex = Ok r' -> k' <> k -> redis_get r' k' = redis_get r k';
  redis_get_delete : forall (r r' : R) (k : string),
    redis_delete r k = Ok r' -> redis_get r' k = Ok None;
  redis_get_delete_ne : forall (r r' : R) (k k' : string),
    redis_delete r k = Ok r' -> k' <> k -> redis_get r' k' = redis_get r k';
}.

(** A redis server kept as a map from key names to the stored text and
    the [ex] it was set with. *)
Module DictRedis.

Record t := Build { entries : gmap string (string * pyval) }.

Definition get (r : t) (k : string) : outcome (option string) :=
  Ok (fst <$> entries r !! k).

Definition set (r : t) (k v : string) (ex : pyval) : outcome t :=
  Ok {| entries := <[k := (v, ex)]> (entries r) |}.

Definition delete (r : t) (k : string) : outcome t :=
  Ok {| entries := base.delete k (entries r) |}.

End DictRedis.

#[global] Instance DictRedis_client : RedisClient DictRedis.t := {|
  redis_get := DictRedis.get;
  redis_set := DictRedis.set;
  redis_delete := DictRedis.delete;
|}.

(** [json.dumps] and [json.loads] on the JSON literals [true], [false]
    and [null]; the codec of the scenarios knows no other value. *)
#[global] Instance literal_codec : JsonCodec := {|
  json_dumps v :=
    match v with
    | PBool true => Ok "true"
    | PBool false => Ok "false"
    | PNone => Ok "null"
    | _ => Raise TypeError
    end;
  json_loads s :=
    if String.eqb s "true" then Ok (PBool true)
    else if String.eqb s "false" then Ok (PBool false)
    else if String.eqb s "null" then Ok PNone
    else Raise JSONDecodeError;
|}.

(** An empty redis storage with the default prefix. *)
Definition redis_store : RedisStorage.t DictRedis.t :=
  {| RedisStorage.redis := {| DictRedis.entries := ∅ |};
     RedisStorage.prefix := "jdy_session" |}.

(** [m] takes every world to one that [R] relates it to. *)
Definition keeps {Store A : Type} (R : relation (world Store)) (m : M Store A) : Prop :=
  forall w, R w (m w).2.

(** The memory storages of [w] and [w'] agree off [key]. *)
Definition same_elsewhere (key : string) (w w' : world MemoryStorage.t) : Prop :=
  forall k : string, k <> key ->
    MemoryStorage._data (session w') !! k = MemoryStorage._data (session w) !! k.

(** A second client, and a memory storage that both share. *)
Definition bob : JDYClient := mk_client "app" "bob" true.

Definition shared_store : MemoryStorage.t :=
  {| MemoryStorage._data :=
       <[access_token_key alice := PStr "T1"]>
         (<[access_token_key bob := PStr "B1"]> ∅) |}.

(** A server with one answer to everything. *)
Definition answer (res : http_result) (log : list event) (ev : event) : http_result :=
  res.


(** A clock that stands at 1000.5 s when first read and at 2000 s after. *)
Definition env_later (srv : list event -> event -> http_result) : env :=
  {| server := srv;
     clock := fun n => match n with O => (2001 # 2)%Q | _ => 2000%Q end;
     int_of_str := fun _ => None |}.

(** A fresh world on the memory storage [m]. *)
Definition fresh_world (m : MemoryStorage.t) : world MemoryStorage.t :=
  {| session := m; expires_at := None; http_log := []; ticks := 0 |}.

(** From [w] to [w'] the log of HTTP calls grew, and unless a token fetch
    is among the new calls the session storage and [expires_at] are the
    same. *)
Definition unchanged_without_fetch {Store : Type} (w w' : world Store) : Prop :=
  exists tr : list event,
    http_log w' = http_log w ++ tr /\
    (fetches tr = 0%nat -> session w' = session w /\ expires_at w' = expires_at w).

(** The URL [_request] calls for [url_or_endpoint]: itself when it starts
    with [http://] or [https://], else the base URL (the [api_base_url]
    argument, or [API_BASE_URL]) followed by it. *)
Definition resolved_url (url_or_endpoint : string) (kw : kwargs) : string :=
  if startswith_http url_or_endpoint then url_or_endpoint
  else default API_BASE_URL (kw_api_base_url kw) +:+ url_or_endpoint.

(** The params [p] hold a token and, off ["access_token"], what [d] holds. *)
Definition carries (d : gmap string pyval) (p : pyval) : Prop :=
  exists pd : gmap string pyval,
    p = PDict pd /\ is_Some (pd !! "access_token") /\
    forall k : string, k <> "access_token" -> pd !! k = d !! k.

(** [ev] is the credential exchange of [self], or a resource call with the
    given method, URL and JSON body whose params carry [d]. *)
Definition call_of (self : JDYClient) (method url : string) (json : option pyval)
  (d : gmap string pyval) (ev : event) : Prop :=
  match ev with
  | HttpGet _ _ => ev = token_call self
  | HttpRequest m u p j => m = method /\ u = url /\ j = json /\ carries d p
  end.

(** The params the resource methods give, before the token is added. *)
Definition tenant_params (self : JDYClient) : gmap string pyval :=
  <["sid" := account_id self]> (<["dbId" := db_id self]> ∅).

(** The keyword arguments [kw] hold the JSON body [json], no
    [api_base_url], and as params a dict that agrees with [d] off
    ["access_token"]. *)
Definition kwargs_carry (json : option pyval) (d : gmap string pyval) (kw : kwargs)
  : Prop :=
  kw_json kw = json /\ kw_api_base_url kw = None /\
  exists pd : gmap string pyval,
    kw_params kw = Some (PDict pd) /\
    forall k : string, k <> "access_token" -> pd !! k = d !! k.

(** A client that was constructed with [auto_retry=False]. *)
Definition carol : JDYClient := mk_client "app" "carol" false.

(** The keyword arguments of the accounts call as the resource method
    gives them, the token yet to be added. *)
Definition accounts_kwargs_bare : kwargs :=
  {| kw_params := Some (PDict (<["sid" := PStr "A"]> (<["dbId" := PStr "B"]> ∅)));
     kw_json := None; kw_api_base_url := None; kw_result_processor := None |}.

(** ** Session storages: properties *)

(** Opens the binds of the two monads. *)
Ltac open_binds :=
  unfold mbind, mret, M_bind, M_ret, outcome_bind, outcome_ret, pure, raise in *.

(** C6: through either storage, [set(key, None, ttl)] gives back the
    storage it was called on: no entry is created or overwritten, and
    every later [get] answers as it did before. *)
Theorem set_none_leaves_storage_unchanged (key : string) (ttl : pyval) :
  (forall m : MemoryStorage.t,
      storage_set m key PNone ttl = Ok m /\ __setitem__ m key PNone = Ok m) /\
  (forall (R : Type) (RC : RedisClient R) (J : JsonCodec) (r : RedisStorage.t R),
      storage_set r key PNone ttl = Ok r /\ __setitem__ r key PNone = Ok r) /\
  (forall (m m' : MemoryStorage.t) (k : string) (dflt : pyval),
      MemoryStorage.set m key PNone ttl = Ok m' ->
      MemoryStorage._data m' = MemoryStorage._data m /\
      MemoryStorage.get m' k dflt = MemoryStorage.get m k dflt) /\
  (forall (R : Type) (RC : RedisClient R) (J : JsonCodec) (r r' : RedisStorage.t R)
          (k : string) (dflt : pyval),
      RedisStorage.set r key PNone ttl = Ok r' ->
      RedisStorage.redis r' = RedisStorage.redis r /\
      RedisStorage.get r' k dflt = RedisStorage.get r k dflt).
Proof.
  repeat split; try reflexivity;
    match goal with Hset : _ = Ok _ |- _ => simpl in Hset; injection Hset as <- end;
    reflexivity.
Qed.

(** C10: the subscript read [store[key]] calls [get] and drops what it
    gave: on a memory storage it returns [None] whatever is stored, while
    [get] returns the stored value; on any storage it returns [None]
    whenever [get] returns, and never anything but [None]. *)
Theorem getitem_returns_none :
  (forall (m : MemoryStorage.t) (key : string), __getitem__ m key = Ok PNone) /\
  (forall (m : MemoryStorage.t) (key : string) (v : pyval),
      MemoryStorage._data m !! key = Some v ->
      storage_get m key PNone = Ok v /\ __getitem__ m key = Ok PNone) /\
  (forall (Store : Type) (SS : SessionStorage Store) (s : Store) (key : string)
          (v : pyval),
      storage_get s key PNone = Ok v -> __getitem__ s key = Ok PNone) /\
  (forall (Store : Type) (SS : SessionStorage Store) (s : Store) (key : string)
          (v : pyval),
      __getitem__ s key = Ok v -> v = PNone) /\
  (forall key : string, __getitem__ abstract_storage key = Raise NotImplementedError).
Proof.
  repeat split.
  - simpl. unfold MemoryStorage.get. now rewrite H.
  - intros Store SS s key v Hget. unfold __getitem__. now rewrite Hget.
  - intros Store SS s key v. unfold __getitem__. open_binds.
    destruct (storage_get s key PNone); congruence.
Qed.

(** With ["T1"] stored, [store[key]] is [None] and [get(key)] is ["T1"]. *)
Lemma getitem_returns_none_witness :
  storage_get store_T1 (access_token_key alice) PNone = Ok (PStr "T1") /\
  __getitem__ store_T1 (access_token_key alice) = Ok PNone.
Proof.
  apply (proj1 (proj2 getitem_returns_none)). reflexivity.
Defined.

(** ** The token key *)

Lemma list_ascii_of_string_app (s1 s2 : string) :
  String.list_ascii_of_string (s1 +:+ s2) = String.list_ascii_of_string s1 ++ String.list_ascii_of_string s2.
Proof. induction s1 as [|a s1 IH]; simpl; [reflexivity | now rewrite IH]. Qed.

Lemma list_ascii_of_string_inj (s1 s2 : string) :
  String.list_ascii_of_string s1 = String.list_ascii_of_string s2 -> s1 = s2.
Proof.
  intros Heq. rewrite <- (String.string_of_list_ascii_of_string s1), Heq.
  apply String.string_of_list_ascii_of_string.
Qed.

Lemma has_char_false (c : Ascii.ascii) (s : string) :
  has_char c s = false -> c ∉ String.list_ascii_of_string s.
Proof.
  induction s as [|a s IH]; simpl; intros Hc.
  - apply not_elem_of_nil.
  - apply orb_false_iff in Hc as [Ha Hs]. apply Ascii.eqb_neq in Ha.
    apply not_elem_of_cons. split; [congruence | auto].
Qed.

(** A list is cut in one way at the first occurrence of [x] ... *)
Lemma cut_at_first {A : Type} (x : A) (l1 l2 r1 r2 : list A) :
  x ∉ l1 -> x ∉ l2 -> l1 ++ x :: r1 = l2 ++ x :: r2 -> l1 = l2 /\ r1 = r2.
Proof.
  revert l2. induction l1 as [|a l1 IH]; intros [|b l2] H1 H2 Heq; simpl in Heq.
  - injection Heq as ->. auto.
  - injection Heq as <- _. exfalso. apply H2. left.
  - injection Heq as -> _. exfalso. apply H1. left.
  - injection Heq as -> Heq. apply not_elem_of_cons in H1 as [_ H1].
    apply not_elem_of_cons in H2 as [_ H2].
    destruct (IH l2 H1 H2 Heq) as [-> ->]. auto.
Qed.

(** ... and at the last one. *)
Lemma cut_at_last {A : Type} (x : A) (l1 l2 r1 r2 : list A) :
  x ∉ r1 -> x ∉ r2 -> l1 ++ x :: r1 = l2 ++ x :: r2 -> l1 = l2 /\ r1 = r2.
Proof.
  intros H1 H2 Heq. apply (f_equal reverse) in Heq.
  rewrite !reverse_app, !reverse_cons, <- !app_assoc in Heq. simpl in Heq.
  apply cut_at_first in Heq as [Hr Hl]; try (rewrite elem_of_reverse; assumption).
  split; apply (inj reverse); assumption.
Qed.

(** The key read as characters. *)
Lemma access_token_key_chars (c : JDYClient) :
  String.list_ascii_of_string (access_token_key c) =
  String.list_ascii_of_string (client_id c) ++
  "_"%char :: String.list_ascii_of_string (username c) ++ String.list_ascii_of_string "_access_token".
Proof.
  unfold access_token_key. now rewrite !list_ascii_of_string_app.
Qed.

(** C7, as the claim states it, fails: two clients with distinct
    (client_id, username) pairs and one token key. *)
Lemma access_token_key_collision :
  (client_id client_ab_c, username client_ab_c)
    <> (client_id client_a_bc, username client_a_bc) /\
  access_token_key client_ab_c = access_token_key client_a_bc.
Proof. split; [discriminate | reflexivity]. Qed.

(** C7, amended: the key is a function of (client_id, username), and two
    clients with distinct pairs have distinct keys when neither client_id
    holds an underscore, or neither username does. *)
Theorem access_token_key_distinct (c1 c2 : JDYClient) :
  ((client_id c1, username c1) = (client_id c2, username c2) ->
   access_token_key c1 = access_token_key c2) /\
  ((has_char "_" (client_id c1) = false /\ has_char "_" (client_id c2) = false) \/
   (has_char "_" (username c1) = false /\ has_char "_" (username c2) = false) ->
   (client_id c1, username c1) <> (client_id c2, username c2) ->
   access_token_key c1 <> access_token_key c2).
Proof.
  split.
  - intros [= Hc Hu]. unfold access_token_key. now rewrite Hc, Hu.
  - intros Hfree Hne Hkey. apply Hne.
    apply (f_equal String.list_ascii_of_string) in Hkey.
    rewrite !access_token_key_chars in Hkey.
    destruct Hfree as [[H1 H2] | [H1 H2]];
      apply has_char_false in H1; apply has_char_false in H2.
    + apply cut_at_first in Hkey as [Hc Hu]; [| assumption..].
      apply app_inv_tail in Hu.
      f_equal; now apply list_ascii_of_string_inj.
    + rewrite !app_comm_cons, !app_assoc in Hkey.
      apply app_inv_tail in Hkey.
      apply cut_at_last in Hkey as [Hc Hu]; [| assumption..].
      f_equal; now apply list_ascii_of_string_inj.
Qed.

(** Two clients of one application: their keys differ. *)
Lemma access_token_key_distinct_witness :
  access_token_key (mk_client "app" "alice" true)
    <> access_token_key (mk_client "app" "bob" true).
Proof.
  apply (proj2 (access_token_key_distinct _ _)).
  - left. split; reflexivity.
  - discriminate.
Defined.

(** ** Traces: properties *)

Lemma requests_app (t1 t2 : list event) :
  requests (t1 ++ t2) = (requests t1 + requests t2)%nat.
Proof. unfold requests. now rewrite List.filter_app, length_app. Qed.

Lemma fetches_app (t1 t2 : list event) :
  fetches (t1 ++ t2) = (fetches t1 + fetches t2)%nat.
Proof. unfold fetches. now rewrite List.filter_app, length_app. Qed.

Lemma at_most_app (r1 f1 r2 f2 : nat) (t1 t2 : list event) :
  at_most r1 f1 t1 -> at_most r2 f2 t2 -> at_most (r1 + r2) (f1 + f2) (t1 ++ t2).
Proof.
  intros [Hr1 Hf1] [Hr2 Hf2]. split.
  - rewrite requests_app. lia.
  - rewrite fetches_app. lia.
Qed.

Lemma at_most_mono (r f r' f' : nat) (tr : list event) :
  (r <= r')%nat -> (f <= f')%nat -> at_most r f tr -> at_most r' f' tr.
Proof. intros Hr Hf [H1 H2]. split; lia. Qed.

Section Emits.
Context {Store : Type}.
Implicit Types w : world Store.

Lemma silent_ret {A} (a : A) : silent (Store := Store) (mret a).
Proof. intros w. reflexivity. Qed.

Lemma silent_raise {A} (e : exn) : silent (Store := Store) (A := A) (raise e).
Proof. intros w. reflexivity. Qed.

Lemma silent_pure {A} (o : outcome A) : silent (Store := Store) (pure o).
Proof. intros w. reflexivity. Qed.

Lemma silent_bind {A B} (m : M Store A) (k : A -> M Store B) :
  silent m -> (forall a, silent (k a)) -> silent (m ≫= k).
Proof.
  intros Hm Hk w. specialize (Hm w). unfold mbind, M_bind.
  destruct (m w) as [[a|e] w1]; simpl in *.
  - now rewrite Hk.
  - assumption.
Qed.

Lemma emits_weaken {A} (P Q : list event -> Prop) (m : M Store A) :
  (forall tr, P tr -> Q tr) -> emits P m -> emits Q m.
Proof. intros HPQ Hm w. destruct (Hm w) as (tr & Hlog & HP). eauto. Qed.

Lemma silent_emits {A} (r f : nat) (m : M Store A) : silent m -> emits (at_most r f) m.
Proof.
  intros Hm w. exists []. rewrite app_nil_r. split; [apply Hm |].
  split; [unfold requests | unfold fetches]; simpl; lia.
Qed.

Lemma emits_bind {A B} (r1 f1 r2 f2 : nat) (m : M Store A) (k : A -> M Store B) :
  emits (at_most r1 f1) m -> (forall a, emits (at_most r2 f2) (k a)) ->
  emits (at_most (r1 + r2) (f1 + f2)) (m ≫= k).
Proof.
  intros Hm Hk w. destruct (Hm w) as (t1 & Hlog1 & HP).
  unfold mbind, M_bind. destruct (m w) as [[a|e] w1]; simpl in *.
  - destruct (Hk a w1) as (t2 & Hlog2 & HQ). exists (t1 ++ t2). split.
    + now rewrite Hlog2, Hlog1, app_assoc.
    + now apply at_most_app.
  - exists t1. split; [assumption |].
    eapply at_most_mono; [| | exact HP]; lia.
Qed.

End Emits.

Section SilentOperations.
Context {Store : Type} `{SessionStorage Store} (E : env).
Implicit Types w : world Store.

Lemma silent_session_get (key : string) (dflt : pyval) :
  silent (session_get (Store := Store) key dflt).
Proof. intros w. reflexivity. Qed.

Lemma silent_session_set (key : string) (value ttl : pyval) :
  silent (session_set (Store := Store) key value ttl).
Proof. intros w. unfold session_set. now destruct (storage_set _ _ _ _). Qed.

Lemma silent_time_time : silent (time_time (Store := Store) E).
Proof. intros w. reflexivity. Qed.

Lemma silent_get_expires_at : silent (get_expires_at (Store := Store)).
Proof. intros w. reflexivity. Qed.

Lemma silent_set_expires_at (e : Z) : silent (set_expires_at (Store := Store) e).
Proof. intros w. reflexivity. Qed.

Lemma http_call_log (ev : event) w :
  http_log (http_call E ev w).2 = http_log w ++ [ev].
Proof. unfold http_call. now destruct (server E _ _). Qed.

(** After an HTTP call and a silent rest, the log holds one call more. *)
Lemma log_after_call {A} (ev : event) (k : bool * option pyval -> M Store A) w :
  (forall res, silent (k res)) ->
  http_log ((http_call E ev ≫= k) w).2 = http_log w ++ [ev].
Proof.
  intros Hk. pose proof (http_call_log ev w) as Hcall.
  unfold mbind, M_bind.
  destruct (http_call E ev w) as [[res|e] w1]; simpl in *; [| assumption].
  now rewrite Hk.
Qed.

End SilentOperations.

(** Proves a computation silent, one bind or branch at a time. *)
Ltac solve_silent :=
  repeat first
    [ apply silent_ret | apply silent_raise | apply silent_pure
    | apply silent_session_get | apply silent_session_set
    | apply silent_time_time | apply silent_get_expires_at
    | apply silent_set_expires_at
    | apply silent_bind; [| intros ?]
    | match goal with
      | |- silent (if ?b then _ else _) => destruct b
      | |- silent (match ?x with _ => _ end) => destruct x
      end ].

Section TokenManager.
Context {Store : Type} `{SessionStorage Store} (E : env).
Implicit Types w : world Store.

(** A fetch makes one HTTP call, the credential exchange, whatever comes
    of it. *)
Lemma _fetch_access_token_log (self : JDYClient) (url : string) (params : pyval) w :
  http_log (_fetch_access_token E self url params w).2
  = http_log w ++ [HttpGet url params].
Proof.
  unfold _fetch_access_token. apply log_after_call. intros res. solve_silent.
Qed.

Lemma fetch_access_token_log (self : JDYClient) w :
  http_log (fetch_access_token E self w).2 = http_log w ++ [token_call self].
Proof.
  unfold fetch_access_token, token_call.
  pose proof (_fetch_access_token_log self (API_BASE_URL +:+ GET_ACCESS_TOKEN)
    (PDict (<["username" := PStr (username self)]>
           (<["password" := PStr (password self)]>
           (<["client_id" := PStr (client_id self)]>
           (<["client_secret" := PStr (client_secret self)]> ∅))))) w) as Hlog.
  unfold mbind, M_bind.
  destruct (_fetch_access_token _ _ _ _ _) as [[r|e] w1]; exact Hlog.
Qed.

(** The fetch on an answer that is no failure: no [errcode], or one
    equal to 0. *)
Lemma _fetch_access_token_granted (self : JDYClient) (url : string) (params : pyval) w
  (r data : gmap string pyval) (token expires_in : pyval) :
  server E (http_log w) (HttpGet url params) = Response true (Some (PDict r)) ->
  from_option py_ne_zero false (r !! "errcode") = false ->
  r !! "data" = Some (PDict data) ->
  data !! "access_token" = Some token ->
  default (PInt 7200) (data !! "expires_in") = expires_in ->
  _fetch_access_token E self url params w
  = match storage_set (session w) (access_token_key self) token expires_in with
    | Raise e => (Raise e, logged (HttpGet url params) w)
    | Ok s' =>
        let w' := {| session := s'; expires_at := expires_at w;
                     http_log := http_log w ++ [HttpGet url params];
                     ticks := Datatypes.S (ticks w) |} in
        match py_add_int (int_of_time (clock E (ticks w))) expires_in with
        | Raise e => (Raise e, w')
        | Ok e =>
            (Ok (PDict r),
             {| session := s'; expires_at := Some e;
                http_log := http_log w ++ [HttpGet url params];
                ticks := Datatypes.S (ticks w) |})
        end
    end.
Proof.
  intros Hsrv Herr Hdata Htok Hexp.
  unfold _fetch_access_token, http_call, session_set, time_time, set_expires_at.
  open_binds. rewrite Hsrv. simpl.
  destruct (r !! "errcode") as [x|]; simpl in *; [rewrite Herr; simpl |];
    rewrite Hdata; simpl;
    (destruct (data !! "expires_in") as [y|]; simpl in *; subst expires_in;
     rewrite Htok; simpl;
     (destruct (storage_set _ _ _ _); simpl; [| reflexivity]);
     [destruct (py_add_int _ y) | ]; reflexivity).
Qed.

End TokenManager.

(** Comparing two floats one way and the other. *)
Lemma SFcompare_antisym (x y : spec_float) :
  SFcompare y x = option_map CompOpp (SFcompare x y).
Proof.
  destruct x as [s|s| |s m e], y as [s'|s'| |s' m' e']; simpl;
    repeat match goal with b : bool |- _ => destruct b end; simpl; try reflexivity.
  all: rewrite (Z.compare_antisym e e'); destruct (e ?= e'); simpl; try reflexivity.
  all: change (Pos.compare_cont Eq m' m) with (Pos.compare m' m);
    change (Pos.compare_cont Eq m m') with (Pos.compare m m');
    rewrite (Pos.compare_antisym m m'); destruct (m ?= m')%positive; reflexivity.
Qed.

(** The conversions at work: 1000.5 and 0.1 as floats; the largest int
    that converts, and the next one, which does not. *)
Example float_conversions :
  float_of_time (2001 # 2) = S754_finite false 8800491068719104 (-43) /\
  float_of_time (1 # 10) = S754_finite false 7205759403792794 (-56) /\
  py_float (2 ^ 1024 - 2 ^ 970 - 1) = Ok (S754_finite false 9007199254740991 971) /\
  py_float (2 ^ 1024 - 2 ^ 970) = Raise OverflowError.
Proof.
  repeat split; vm_compute; reflexivity.
Qed.

(** A float that is at most [n] does not exceed it. *)
Lemma float_le_not_gt (x : spec_float) (n : Z) :
  SFleb x (float_of_Z n) = true -> py_float_gt x n = false.
Proof.
  unfold py_float_gt, SFleb, SFltb. rewrite (SFcompare_antisym x (float_of_Z n)).
  destruct (SFcompare x (float_of_Z n)) as [[| |]|]; simpl; congruence.
Qed.

Section TokenManagerClaims.
Context {Store : Type} `{SessionStorage Store} (E : env).
Implicit Types w : world Store.

(** C9: when the credential exchange answers with a non-zero [errcode],
    the fetch raises [JDYClientException] with that errcode and the
    response's description; it leaves the session storage and
    [expires_at] as they were and makes no HTTP call but that one. *)
Theorem fetch_nonzero_errcode_raises (self : JDYClient) (url : string)
  (params : pyval) w (r : gmap string pyval) (errcode description : pyval) :
  server E (http_log w) (HttpGet url params) = Response true (Some (PDict r)) ->
  r !! "errcode" = Some errcode ->
  py_ne_zero errcode = true ->
  r !! "description" = Some description ->
  _fetch_access_token E self url params w
  = (Raise (JDYClientException errcode (Msg description)),
     logged (HttpGet url params) w).
Proof.
  intros Hsrv Herr Hnz Hdesc.
  unfold _fetch_access_token, http_call. open_binds. rewrite Hsrv. simpl.
  rewrite Herr. simpl. rewrite Hnz, Hdesc. reflexivity.
Qed.

(** C5: when the credential exchange answers with [errcode] 0, a token
    and an [expires_in] (7200 when the field is absent), the fetch stores
    the token under the client's key with that TTL and sets [expires_at]
    to the clock reading, in whole seconds, plus [expires_in]. *)
Theorem fetch_success_caches_token (self : JDYClient) (url : string)
  (params : pyval) w (r data : gmap string pyval) (token : pyval)
  (expires_in : Z) (s' : Store) :
  server E (http_log w) (HttpGet url params) = Response true (Some (PDict r)) ->
  r !! "errcode" = Some (PInt 0) ->
  r !! "data" = Some (PDict data) ->
  data !! "access_token" = Some token ->
  default (PInt 7200) (data !! "expires_in") = PInt expires_in ->
  storage_set (session w) (access_token_key self) token (PInt expires_in) = Ok s' ->
  _fetch_access_token E self url params w
  = (Ok (PDict r),
     {| session := s';
        expires_at := Some (int_of_time (clock E (ticks w)) + expires_in);
        http_log := http_log w ++ [HttpGet url params];
        ticks := Datatypes.S (ticks w) |}).
Proof.
  intros Hsrv Herr Hdata Htok Hexp Hset.
  unfold _fetch_access_token, http_call, session_set, time_time, set_expires_at.
  open_binds. rewrite Hsrv. simpl.
  rewrite Herr. simpl. rewrite Hdata. simpl.
  destruct (data !! "expires_in") as [x|] eqn:Hx; simpl in *.
  - subst x. rewrite Htok. simpl. rewrite Hset. reflexivity.
  - injection Hexp as <-. rewrite Htok. simpl. rewrite Hset. reflexivity.
Qed.



(** A token in the storage and no [expires_at]: the getter returns the
    token and leaves the world as it is. *)
Lemma access_token_without_expiry (self : JDYClient) w (token : pyval) :
  storage_get (session w) (access_token_key self) PNone = Ok token ->
  py_truthy token = true ->
  expires_at w = None ->
  access_token E self w = (Ok token, w).
Proof.
  intros Hget Htruthy Hexp. unfold access_token, session_get, get_expires_at.
  open_binds. simpl. now rewrite Hget, Htruthy, Hexp.
Qed.

(** [not self.expires_at] holds of 0 as it does of [None]: the token is
    returned as a user-provided one. *)
Remark access_token_zero_expiry (self : JDYClient) w (token : pyval) :
  storage_get (session w) (access_token_key self) PNone = Ok token ->
  py_truthy token = true ->
  expires_at w = Some 0 ->
  access_token E self w = (Ok token, w).
Proof.
  intros Hget Htruthy Hexp. unfold access_token, session_get, get_expires_at.
  open_binds. simpl. now rewrite Hget, Htruthy, Hexp.
Qed.

(** A falsy value under the key, an empty string say, counts as no token:
    the getter fetches. *)
Remark access_token_falsy_fetches (self : JDYClient) w (token : pyval) :
  storage_get (session w) (access_token_key self) PNone = Ok token ->
  py_truthy token = false ->
  http_log (access_token E self w).2 = http_log w ++ [token_call self].
Proof.
  intros Hget Hfalsy. unfold access_token, session_get.
  open_binds. simpl. rewrite Hget, Hfalsy.
  pose proof (fetch_access_token_log E self w) as Hlog.
  destruct (fetch_access_token E self w) as [[u|err] w']; exact Hlog.
Qed.

Lemma __init___expires_at (self : JDYClient) (s : Store) (token : pyval) w :
  __init__ self s token = Ok w -> expires_at w = None /\ http_log w = [].
Proof.
  unfold __init__, session_set. destruct (py_truthy token); simpl.
  - destruct (storage_set _ _ _ _); intros [= <-]; auto.
  - intros [= <-]; auto.
Qed.

(** C8: a client constructed with a token, whose storage hands the token
    back and whose [expires_at] no fetch has set: however often the
    getter is called, every call returns that token, and the world stays
    the constructed one, its log of HTTP calls empty. *)
Theorem preseeded_token_never_fetches (self : JDYClient) (s : Store)
  (token : pyval) w :
  py_truthy token = true ->
  __init__ self s token = Ok w ->
  storage_get (session w) (access_token_key self) PNone = Ok token ->
  expires_at w = None /\ http_log w = [] /\
  forall n, access_token_times E n self w = (replicate n (Ok token), w).
Proof.
  intros Htruthy Hinit Hget.
  destruct (__init___expires_at _ _ _ _ Hinit) as [Hexp Hlog].
  repeat split; try assumption.
  induction n as [|n IH]; simpl; [reflexivity |].
  rewrite (access_token_without_expiry self w token Hget Htruthy Hexp). simpl.
  now rewrite IH.
Qed.

End TokenManagerClaims.

(** The memory storage hands back the token a client was constructed
    with. *)
Lemma __init___memory_get (self : JDYClient) (m : MemoryStorage.t) (token : pyval)
  (w : world MemoryStorage.t) :
  py_truthy token = true ->
  __init__ self m token = Ok w ->
  storage_get (session w) (access_token_key self) PNone = Ok token.
Proof.
  intros Htruthy. unfold __init__, session_set. rewrite Htruthy. simpl.
  destruct token; try discriminate; intros [= <-]; simpl;
    unfold MemoryStorage.get; simpl; now rewrite lookup_insert_eq.
Qed.

(** A refused password: the exception carries the server's code and
    description, and the cached token and [expires_at] stay. *)
Lemma fetch_nonzero_errcode_raises_witness :
  _fetch_access_token (env_with serve_denied) alice "https://api.kingdee.com/t" PNone
    (world_T1 (Some 5000))
  = (Raise (JDYClientException (PInt 40001) (Msg (PStr "bad password"))),
     logged (HttpGet "https://api.kingdee.com/t" PNone) (world_T1 (Some 5000))).
Proof.
  apply (fetch_nonzero_errcode_raises (env_with serve_denied) alice _ _ _
           (<["errcode" := PInt 40001]> (<["description" := PStr "bad password"]> ∅)));
    reflexivity.
Defined.

(** A granted token without [expires_in], the clock at 1000.5 s: the
    token is stored with TTL 7200 and [expires_at] is 8200. *)
Lemma fetch_success_caches_token_witness :
  _fetch_access_token (env_with (serve "T2" payload)) alice "https://api.kingdee.com/t"
    PNone (world_T1 None)
  = (Ok (token_reply "T2"),
     {| session := {| MemoryStorage._data := {[ access_token_key alice := PStr "T2" ]} |};
        expires_at := Some 8200;
        http_log := [HttpGet "https://api.kingdee.com/t" PNone];
        ticks := 1 |}).
Proof.
  apply (fetch_success_caches_token (env_with (serve "T2" payload)) alice _ _
           (world_T1 None) _ (<["access_token" := PStr "T2"]> ∅) (PStr "T2") 7200);
    reflexivity.
Defined.



(** [alice] constructed with ["T1"] on an empty memory storage: three
    calls of the getter give ["T1"] three times and no HTTP call. *)
Lemma preseeded_token_never_fetches_witness :
  access_token_times (env_with serve_denied) 3 alice (world_T1 None)
  = ([Ok (PStr "T1"); Ok (PStr "T1"); Ok (PStr "T1")], world_T1 None).
Proof.
  apply (preseeded_token_never_fetches (env_with serve_denied) alice
           MemoryStorage.__init__ (PStr "T1") (world_T1 None)); reflexivity.
Defined.

(** ** The request executor: properties *)

Section Executor.
Context {Store : Type} `{SessionStorage Store} (E : env).
Implicit Types w : world Store.
Implicit Types rec : string -> string -> bool -> kwargs -> M Store pyval.

Lemma bind_ext {A B} (m : M Store A) (k k' : A -> M Store B) w :
  (forall a w', k a w' = k' a w') -> (m ≫= k) w = (m ≫= k') w.
Proof.
  intros Hk. unfold mbind, M_bind. destruct (m w) as [[a|e] w1]; [apply Hk | reflexivity].
Qed.

(** [_handle_result] on a dict whose ["code"] [int()] turns into [n]:
    success when [n] is 0; the retry when it is allowed and [n] is 4010;
    otherwise [res.request] is evaluated, on the decoded dict. *)
Lemma _handle_result_dict rec (self : JDYClient) (d : gmap string pyval) (v : pyval)
  (n : Z) (method url : string) (rp : option (pyval -> pyval)) (ar : bool)
  (kw : kwargs) w :
  d !! "code" = Some v ->
  py_int (int_of_str E) v = Ok n ->
  _handle_result E rec self (PDict d) method url rp ar kw w
  = let result := PDict (<["code" := PInt n]> d) in
    if n =? 0 then
      (Ok (match rp with None => result | Some f => f result end), w)
    else if auto_retry self && ar && (n =? INVALID_CREDENTIAL) then
      match fetch_access_token E self w with
      | (Raise e, w1) => (Raise e, w1)
      | (Ok _, w1) =>
          match storage_get (session w1) (access_token_key self) PNone with
          | Raise e => (Raise e, w1)
          | Ok token =>
              match kw_params kw with
              | None => (Raise KeyError, w1)
              | Some p =>
                  match py_setitem p "access_token" token with
                  | Raise e => (Raise e, w1)
                  | Ok params =>
                      rec method url false
                        {| kw_params := Some params; kw_json := kw_json kw;
                           kw_api_base_url := kw_api_base_url kw;
                           kw_result_processor := rp |} w1
                  end
              end
          end
      end
    else (Raise AttributeError, w).
Proof.
  intros Hcode Hint. unfold _handle_result, session_get. open_binds. simpl.
  rewrite Hcode. simpl. rewrite Hint. simpl.
  rewrite lookup_insert_eq. simpl.
  destruct (n =? 0) eqn:Hn; simpl; [reflexivity |].
  destruct (auto_retry self && ar && (n =? INVALID_CREDENTIAL)); [| reflexivity].
  destruct (fetch_access_token E self w) as [[u|e] w1]; [| reflexivity].
  destruct (storage_get (session w1) (access_token_key self) PNone) as [token|];
    [| reflexivity].
  destruct (kw_params kw) as [p|]; [| reflexivity].
  destruct (py_setitem p "access_token" token); reflexivity.
Qed.

(** C4: on a response whose code is 0, [_handle_result] returns the
    response as it came when no [result_processor] is given, and what the
    [result_processor] makes of it when one is; the world is untouched. *)
Theorem handle_result_success rec (self : JDYClient) (d : gmap string pyval)
  (method url : string) (ar : bool) (kw : kwargs) w :
  d !! "code" = Some (PInt 0) ->
  _handle_result E rec self (PDict d) method url None ar kw w = (Ok (PDict d), w) /\
  forall f : pyval -> pyval,
    _handle_result E rec self (PDict d) method url (Some f) ar kw w
    = (Ok (f (PDict d)), w).
Proof.
  intros Hcode. split; [| intros f];
    rewrite (_handle_result_dict _ _ d (PInt 0) 0) by (assumption || reflexivity);
    simpl; now rewrite (insert_id _ _ _ Hcode).
Qed.

(** A non-zero code outside the retry: evaluating the arguments of the
    exception fails at [res.request], for [res] is the decoded dict. *)
Lemma handle_result_failure rec (self : JDYClient) (d : gmap string pyval) (n : Z)
  (method url : string) (rp : option (pyval -> pyval)) (ar : bool) (kw : kwargs) w :
  d !! "code" = Some (PInt n) ->
  n <> 0 ->
  auto_retry self && ar && (n =? INVALID_CREDENTIAL) = false ->
  _handle_result E rec self (PDict d) method url rp ar kw w = (Raise AttributeError, w).
Proof.
  intros Hcode Hn Hretry.
  rewrite (_handle_result_dict _ _ d (PInt n) n) by (assumption || reflexivity).
  simpl. apply Z.eqb_neq in Hn. now rewrite Hn, Hretry.
Qed.

(** With the retry not allowed, [_handle_result] never calls back. *)
Lemma handle_result_no_retry rec rec' (self : JDYClient) (res : pyval)
  (method url : string) (rp : option (pyval -> pyval)) (kw : kwargs) w :
  _handle_result E rec self res method url rp false kw w
  = _handle_result E rec' self res method url rp false kw w.
Proof.
  unfold _handle_result.
  do 3 (apply bind_ext; intros ? ?).
  apply bind_ext; intros failed ?.
  destruct failed; [| reflexivity].
  do 2 (apply bind_ext; intros ? ?).
  rewrite andb_false_r. reflexivity.
Qed.

(** [_handle_result] calls back with the retry switched off, and in no
    other way. *)
Lemma handle_result_callback_ext rec rec' (self : JDYClient) (res : pyval)
  (method url : string) (rp : option (pyval -> pyval)) (ar : bool) (kw : kwargs) w :
  (forall m u k w', rec m u false k w' = rec' m u false k w') ->
  _handle_result E rec self res method url rp ar kw w
  = _handle_result E rec' self res method url rp ar kw w.
Proof.
  intros Hrec. unfold _handle_result.
  do 3 (apply bind_ext; intros ? ?).
  apply bind_ext; intros failed ?.
  destruct failed; [| reflexivity].
  do 2 (apply bind_ext; intros ? ?).
  destruct (auto_retry self && ar && _); [| reflexivity].
  do 3 (apply bind_ext; intros ? ?).
  apply Hrec.
Qed.

Lemma silent_handle_result_no_retry rec (self : JDYClient) (res : pyval)
  (method url : string) (rp : option (pyval -> pyval)) (kw : kwargs) :
  silent (_handle_result E rec self res method url rp false kw).
Proof.
  unfold _handle_result.
  do 3 (apply silent_bind; [solve_silent | intros ?]).
  apply silent_bind; [solve_silent | intros failed].
  destruct failed; [| solve_silent].
  do 2 (apply silent_bind; [solve_silent | intros ?]).
  rewrite andb_false_r. simpl. solve_silent.
Qed.

Lemma emits_bind_silent {A B} (r f : nat) (m : M Store A) (k : A -> M Store B) :
  silent m -> (forall a, emits (at_most r f) (k a)) -> emits (at_most r f) (m ≫= k).
Proof.
  intros Hm Hk. apply (emits_bind 0 0 r f); [now apply silent_emits | assumption].
Qed.

Lemma emits_mono {A} (r f r' f' : nat) (m : M Store A) :
  (r <= r')%nat -> (f <= f')%nat -> emits (at_most r f) m -> emits (at_most r' f') m.
Proof.
  intros Hr Hf. apply emits_weaken. intros tr. now apply at_most_mono.
Qed.

Lemma emits_fetch_access_token (self : JDYClient) :
  emits (at_most 0 1) (fetch_access_token E self).
Proof.
  intros w. exists [token_call self]. split; [apply fetch_access_token_log |].
  split; reflexivity.
Qed.

Lemma emits_access_token (self : JDYClient) :
  emits (at_most 0 1) (access_token E self).
Proof.
  unfold access_token.
  apply emits_bind_silent; [solve_silent | intros token].
  apply emits_bind_silent; [solve_silent | intros cached].
  destruct cached; [apply silent_emits; solve_silent |].
  apply (emits_bind 0 1 0 0); [apply emits_fetch_access_token |].
  intros _. apply silent_emits. solve_silent.
Qed.

Lemma emits_http_request (method url : string) (params : pyval) (json : option pyval) :
  emits (at_most 1 0) (http_call (Store := Store) E (HttpRequest method url params json)).
Proof.
  intros w. eexists. split; [apply http_call_log |]. split; reflexivity.
Qed.

(** [_handle_result] adds the forced fetch and what its one call back
    adds; the call back carries the token in its params. *)
Lemma emits_handle_result rec (r f : nat) (self : JDYClient) (res : pyval)
  (method url : string) (rp : option (pyval -> pyval)) (ar : bool) (kw : kwargs) :
  (forall m u k d,
      kw_params k = Some (PDict d) -> is_Some (d !! "access_token") ->
      emits (at_most r f) (rec m u false k)) ->
  emits (at_most r (1 + f)) (_handle_result E rec self res method url rp ar kw).
Proof.
  intros Hrec. unfold _handle_result.
  do 3 (apply emits_bind_silent; [solve_silent | intros ?]).
  apply emits_bind_silent; [solve_silent | intros failed].
  destruct failed; [| apply silent_emits; solve_silent].
  do 2 (apply emits_bind_silent; [solve_silent | intros ?]).
  destruct (auto_retry self && ar && _); [| apply silent_emits; solve_silent].
  apply (emits_bind 0 1 r f); [apply emits_fetch_access_token | intros _].
  apply emits_bind_silent; [solve_silent | intros token].
  destruct (kw_params kw) as [[|?|?|?|?|d]|];
    try solve [apply silent_emits; intros w; reflexivity].
  intros w. apply (Hrec _ _ _ (<["access_token" := token]> d)); [reflexivity |].
  rewrite lookup_insert_eq. eauto.
Qed.

(** One level of [_request]: the token getter when the params lack a
    token, the resource call, and what [_handle_result] adds. *)
Lemma emits_request_level (fuel fp rh fh : nat) (self : JDYClient)
  (method url_or_endpoint : string) (ar : bool) (kw : kwargs) :
  (forall d, default (PDict ∅) (kw_params kw) = PDict d ->
             d !! "access_token" = None -> (1 <= fp)%nat) ->
  (forall res url rp k,
      emits (at_most rh fh)
        (_handle_result E (_request E fuel self) self res method url rp ar k)) ->
  emits (at_most (1 + rh) (fp + fh))
    (_request E (Datatypes.S fuel) self method url_or_endpoint ar kw).
Proof.
  intros Hfp Hhandle. cbn [_request].
  apply (emits_bind 0 fp (1 + rh) fh).
  { destruct (default (PDict ∅) (kw_params kw)) as [|?|?|?|?|d] eqn:Hparams;
      try solve [apply silent_emits; solve_silent].
    destruct (bool_decide (is_Some (d !! "access_token"))) eqn:Htoken.
    - apply silent_emits. solve_silent.
    - apply bool_decide_eq_false in Htoken.
      apply (emits_mono 0 1); [lia | |].
      + apply (Hfp d); [reflexivity |].
        destruct (d !! "access_token") eqn:Hd; [| reflexivity].
        exfalso. apply Htoken. eauto.
      + apply (emits_bind 0 1 0 0); [apply emits_access_token |].
        intros ?. apply silent_emits. solve_silent. }
  intros params. apply (emits_bind 1 0 rh fh).
  { destruct (if negb (startswith_http url_or_endpoint) then None
              else kw_api_base_url kw).
    - apply silent_emits. solve_silent.
    - apply emits_http_request. }
  intros res. destruct (negb res.1); [apply silent_emits; solve_silent |].
  apply emits_bind_silent; [solve_silent | intros body].
  apply emits_bind_silent; [solve_silent | intros has_code].
  destruct (negb has_code); [apply silent_emits; solve_silent |].
  apply Hhandle.
Qed.

Lemma emits_request_no_retry (fuel : nat) (self : JDYClient)
  (method url_or_endpoint : string) (kw : kwargs) :
  emits (at_most 1 1) (_request E fuel self method url_or_endpoint false kw).
Proof.
  destruct fuel as [|fuel]; [apply silent_emits; solve_silent |].
  apply (emits_request_level fuel 1 0 0); [intros; lia |].
  intros. apply silent_emits, silent_handle_result_no_retry.
Qed.

Lemma emits_request_with_token (fuel : nat) (self : JDYClient)
  (method url_or_endpoint : string) (kw : kwargs) (d : gmap string pyval) :
  kw_params kw = Some (PDict d) ->
  is_Some (d !! "access_token") ->
  emits (at_most 1 0) (_request E fuel self method url_or_endpoint false kw).
Proof.
  intros Hparams [token Htoken].
  destruct fuel as [|fuel]; [apply silent_emits; solve_silent |].
  apply (emits_request_level fuel 0 0 0).
  - rewrite Hparams. simpl. intros d' [= <-]. congruence.
  - intros. apply silent_emits, silent_handle_result_no_retry.
Qed.

(** Whatever the server answers, one [_request] makes at most two
    resource calls and at most two token fetches. *)
Lemma emits_request (fuel : nat) (self : JDYClient)
  (method url_or_endpoint : string) (ar : bool) (kw : kwargs) :
  emits (at_most 2 2) (_request E fuel self method url_or_endpoint ar kw).
Proof.
  destruct fuel as [|fuel]; [apply silent_emits; solve_silent |].
  apply (emits_request_level fuel 1 1 1); [intros; lia |].
  intros res url rp k. apply (emits_handle_result _ 1 0).
  intros m u k' d. apply emits_request_with_token.
Qed.

(** A depth of one is enough for a call that may not retry, and a depth
    of two for any call: the result is that of every greater depth. *)
Lemma request_depth_no_retry (fuel : nat) (self : JDYClient)
  (method url_or_endpoint : string) (kw : kwargs) w :
  _request E (Datatypes.S fuel) self method url_or_endpoint false kw w
  = _request E 1 self method url_or_endpoint false kw w.
Proof.
  cbn [_request].
  apply bind_ext; intros params ?.
  apply bind_ext; intros res ?.
  destruct (negb res.1); [reflexivity |].
  apply bind_ext; intros body ?.
  apply bind_ext; intros has_code ?.
  destruct (negb has_code); [reflexivity |].
  apply handle_result_no_retry.
Qed.

Lemma request_depth (fuel : nat) (self : JDYClient)
  (method url_or_endpoint : string) (ar : bool) (kw : kwargs) w :
  _request E (Datatypes.S (Datatypes.S fuel)) self method url_or_endpoint ar kw w
  = _request E 2 self method url_or_endpoint ar kw w.
Proof.
  cbn [_request].
  apply bind_ext; intros params ?.
  apply bind_ext; intros res ?.
  destruct (negb res.1); [reflexivity |].
  apply bind_ext; intros body ?.
  apply bind_ext; intros has_code ?.
  destruct (negb has_code); [reflexivity |].
  apply handle_result_callback_ext. intros m u k w''.
  apply request_depth_no_retry.
Qed.

End Executor.

Section ExecutorClaims.
Context {Store : Type} `{SessionStorage Store} (E : env).
Implicit Types w : world Store.
Implicit Types rec : string -> string -> bool -> kwargs -> M Store pyval.

(** C1: on a response whose code is 4010, with the client's [auto_retry]
    and the call's [auto_retry] both true, [_handle_result] runs one
    fetch, whose one HTTP call is the credential exchange, reads the token
    the storage then holds, puts it into the params and calls [_request]
    once, with [auto_retry=False]; a failure of one of these steps ends
    the call with its exception.  A call with [auto_retry=False] never
    calls back.  So one [_request] makes at most two resource calls,
    whatever the server answers, and a call depth of two serves every
    call. *)
Theorem retry_at_most_once :
  (forall rec (self : JDYClient) (d : gmap string pyval) (v : pyval)
          (method url : string) (rp : option (pyval -> pyval)) (kw : kwargs)
          (p : pyval) w,
      d !! "code" = Some v ->
      py_int (int_of_str E) v = Ok INVALID_CREDENTIAL ->
      auto_retry self = true ->
      kw_params kw = Some p ->
      http_log (fetch_access_token E self w).2 = http_log w ++ [token_call self] /\
      _handle_result E rec self (PDict d) method url rp true kw w
      = match fetch_access_token E self w with
        | (Raise e, w1) => (Raise e, w1)
        | (Ok _, w1) =>
            match storage_get (session w1) (access_token_key self) PNone with
            | Raise e => (Raise e, w1)
            | Ok token =>
                match py_setitem p "access_token" token with
                | Raise e => (Raise e, w1)
                | Ok params =>
                    rec method url false
                      {| kw_params := Some params; kw_json := kw_json kw;
                         kw_api_base_url := kw_api_base_url kw;
                         kw_result_processor := rp |} w1
                end
            end
        end) /\
  (forall rec rec' (self : JDYClient) (res : pyval) (method url : string)
          (rp : option (pyval -> pyval)) (kw : kwargs) w,
      _handle_result E rec self res method url rp false kw w
      = _handle_result E rec' self res method url rp false kw w /\
      http_log (_handle_result E rec self res method url rp false kw w).2
      = http_log w) /\
  (forall (fuel : nat) (self : JDYClient) (method url_or_endpoint : string)
          (ar : bool) (kw : kwargs),
      emits (at_most 2 2) (_request E fuel self method url_or_endpoint ar kw) /\
      emits (at_most 1 1) (_request E fuel self method url_or_endpoint false kw)) /\
  (forall (fuel : nat) (self : JDYClient) (method url_or_endpoint : string)
          (ar : bool) (kw : kwargs) w,
      _request E (Datatypes.S (Datatypes.S fuel)) self method url_or_endpoint ar kw w
      = _request E 2 self method url_or_endpoint ar kw w).
Proof.
  repeat apply conj.
  - intros rec self d v method url rp kw p w Hcode Hint Hauto Hparams.
    split; [apply fetch_access_token_log |].
    rewrite (_handle_result_dict E rec self d v INVALID_CREDENTIAL) by assumption.
    rewrite Hauto, Hparams. reflexivity.
  - intros. split; [apply handle_result_no_retry |].
    apply silent_handle_result_no_retry.
  - intros. split; [apply emits_request | apply emits_request_no_retry].
  - intros. apply request_depth.
Qed.

End ExecutorClaims.

(** ["T1"] is rejected with 4010: one fetch brings ["T2"], the call is
    made again with it, and its answer is the result. *)
Lemma retry_at_most_once_witness :
  _handle_result (env_with serve_expired) (_request (env_with serve_expired) 1 alice)
    alice (failure_reply 4010) "get" (API_BASE_URL +:+ ACCOUNTS) None true
    (accounts_kwargs "T1") (logged (accounts_call "T1") (world_T1 None))
  = (Ok payload,
     {| session := {| MemoryStorage._data := {[ access_token_key alice := PStr "T2" ]} |};
        expires_at := Some 8200;
        http_log := [accounts_call "T1"; token_call alice; accounts_call "T2"];
        ticks := 1 |}).
Proof.
  etransitivity.
  - apply (proj1 (retry_at_most_once (env_with serve_expired)))
      with (v := PInt 4010)
           (p := PDict (<["access_token" := PStr "T1"]>
                       (<["sid" := PStr "A"]> (<["dbId" := PStr "B"]> ∅))));
      reflexivity.
  - vm_compute. reflexivity.
Defined.

(** The same through the resource method. *)
Example expired_token_is_refreshed :
  accounting_get_accounts (env_with serve_expired) alice (world_T1 None)
  = (Ok payload,
     {| session := {| MemoryStorage._data := {[ access_token_key alice := PStr "T2" ]} |};
        expires_at := Some 8200;
        http_log := [accounts_call "T1"; token_call alice; accounts_call "T2"];
        ticks := 1 |}).
Proof. vm_compute. reflexivity. Qed.

(** C2, on the code: a response [{"code": 500, "msg": "boom"}] ends the
    accounts call with [AttributeError], not with [JDYClientException];
    so does a second 4010 in a row, after the one retry: two resource
    calls and one fetch were made. *)
Theorem api_error_raises_AttributeError :
  accounting_get_accounts (env_with (serve "T2" (failure_reply 500))) alice
    (world_T1 None)
  = (Raise AttributeError, logged (accounts_call "T1") (world_T1 None)) /\
  (accounting_get_accounts (env_with (serve "T2" (failure_reply 4010))) alice
     (world_T1 None)).1
  = Raise AttributeError /\
  http_log (accounting_get_accounts (env_with (serve "T2" (failure_reply 4010))) alice
              (world_T1 None)).2
  = [accounts_call "T1"; token_call alice; accounts_call "T2"].
Proof. repeat split; vm_compute; reflexivity. Qed.

(** The payload comes back as it is, or as the [result_processor] makes
    it. *)
Lemma handle_result_success_witness :
  _handle_result (env_with (serve "T2" payload)) (_request (env_with (serve "T2" payload)) 1 alice)
    alice payload "get" (API_BASE_URL +:+ ACCOUNTS) None true
    (accounts_kwargs "T1") (world_T1 None)
  = (Ok payload, world_T1 None) /\
  _handle_result (env_with (serve "T2" payload)) (_request (env_with (serve "T2" payload)) 1 alice)
    alice payload "get" (API_BASE_URL +:+ ACCOUNTS)
    (Some (fun v => PList [v])) true
    (accounts_kwargs "T1") (world_T1 None)
  = (Ok (PList [payload]), world_T1 None).
Proof.
  pose proof (handle_result_success (env_with (serve "T2" payload))
                (_request (env_with (serve "T2" payload)) 1 alice) alice
                (<["code" := PInt 0]> (<["items" := PList [PStr "1001"]]> ∅))
                "get" (API_BASE_URL +:+ ACCOUNTS) true (accounts_kwargs "T1")
                (world_T1 None) eq_refl) as [Hplain Hproc].
  split; [exact Hplain | exact (Hproc _)].
Defined.

(** The first call of a fresh client: the getter fetches ["T1"], the
    accounts call carries it, and the payload is returned as it came. *)
Example first_call_fetches_then_returns_payload :
  accounting_get_accounts (env_with (serve "T1" payload)) alice
    {| session := MemoryStorage.__init__; expires_at := None; http_log := []; ticks := 0 |}
  = (Ok payload,
     {| session := store_T1; expires_at := Some 8200;
        http_log := [token_call alice; accounts_call "T1"]; ticks := 1 |}).
Proof. vm_compute. reflexivity. Qed.

(** ** Session storages: further properties *)

(** X1: What a memory storage was given under a key, it gives back: a value
    other than [None] set under [key], with whatever [ttl], is what [get]
    then returns for [key]; the other keys read as before. *)
Theorem memory_set_then_get (m : MemoryStorage.t) (key : string)
  (value ttl dflt : pyval) :
  value <> PNone ->
  exists m' : MemoryStorage.t,
    MemoryStorage.set m key value ttl = Ok m' /\
    __setitem__ m key value = Ok m' /\
    MemoryStorage.get m' key dflt = Ok value /\
    forall k : string, k <> key ->
      MemoryStorage.get m' k dflt = MemoryStorage.get m k dflt.
Proof.
  intros Hvalue.
  exists {| MemoryStorage._data := <[key := value]> (MemoryStorage._data m) |}.
  repeat split.
  - destruct value; [congruence | reflexivity..].
  - unfold __setitem__. simpl. destruct value; [congruence | reflexivity..].
  - unfold MemoryStorage.get. simpl. now rewrite lookup_insert_eq.
  - intros k Hk. unfold MemoryStorage.get. simpl.
    now rewrite lookup_insert_ne by congruence.
Qed.

Lemma memory_set_then_get_witness :
  exists m' : MemoryStorage.t,
    MemoryStorage.set store_T1 "k" (PStr "v") (PInt 60) = Ok m' /\
    __setitem__ store_T1 "k" (PStr "v") = Ok m' /\
    MemoryStorage.get m' "k" PNone = Ok (PStr "v") /\
    forall k : string, k <> "k" ->
      MemoryStorage.get m' k PNone = MemoryStorage.get store_T1 k PNone.
Proof.
  apply (memory_set_then_get store_T1 "k" (PStr "v") (PInt 60) PNone). discriminate.
Defined.

(** X2: After [delete(key)] a memory storage answers [get(key, default)]
    with the default, and the other keys as before; deleting a key that
    is not stored changes nothing and raises nothing. *)
Theorem memory_delete_then_get (m : MemoryStorage.t) (key : string) (dflt : pyval) :
  exists m' : MemoryStorage.t,
    MemoryStorage.delete m key = Ok m' /\
    __delitem__ m key = Ok m' /\
    MemoryStorage.get m' key dflt = Ok dflt /\
    (forall k : string, k <> key ->
       MemoryStorage.get m' k dflt = MemoryStorage.get m k dflt) /\
    (MemoryStorage._data m !! key = None -> m' = m).
Proof.
  exists {| MemoryStorage._data := base.delete key (MemoryStorage._data m) |}.
  repeat split.
  - unfold MemoryStorage.get. simpl. now rewrite lookup_delete_eq.
  - intros k Hk. unfold MemoryStorage.get. simpl.
    now rewrite lookup_delete_ne by congruence.
  - intros Hmissing. destruct m as [d]. simpl in *. f_equal.
    now apply delete_id.
Qed.

Section RedisProperties.
Context {R : Type} `{RedisLaws R} `{JsonCodec}.

Lemma to_text_id (s : string) : to_text s = s.
Proof.
  unfold to_text. destruct (String.eqb s "") eqn:Hs; [| reflexivity].
  apply String.eqb_eq in Hs. now subst.
Qed.

Lemma key_name_inj (self : RedisStorage.t R) (k k' : string) :
  RedisStorage.key_name self k = RedisStorage.key_name self k' -> k = k'.
Proof.
  unfold RedisStorage.key_name. intros Heq.
  apply list_ascii_of_string_inj.
  apply (f_equal String.list_ascii_of_string) in Heq.
  rewrite !list_ascii_of_string_app in Heq.
  now do 2 apply app_inv_head in Heq.
Qed.

(** X3: A redis storage gives back what it was given: when [json.loads]
    undoes [json.dumps] on the value and the redis client accepts the
    write, [set(key, value, ttl)] writes the dumped value under
    [prefix:key] with [ex=ttl], [get(key)] then returns the value, and
    the other keys read as before. *)
Theorem redis_set_then_get (self : RedisStorage.t R) (key : string)
  (value ttl dflt : pyval) (text : string) (r' : R) :
  value <> PNone ->
  json_dumps value = Ok text ->
  json_loads text = Ok value ->
  redis_set (RedisStorage.redis self) (RedisStorage.key_name self key) text ttl
    = Ok r' ->
  let self' := {| RedisStorage.redis := r';
                  RedisStorage.prefix := RedisStorage.prefix self |} in
  RedisStorage.set self key value ttl = Ok self' /\
  RedisStorage.get self' key dflt = Ok value /\
  forall k : string, k <> key ->
    RedisStorage.get self' k dflt = RedisStorage.get self k dflt.
Proof.
  intros Hvalue Hdumps Hloads Hset self'. repeat split.
  - unfold RedisStorage.set. open_binds.
    destruct value; try congruence; rewrite Hdumps, Hset; reflexivity.
  - unfold RedisStorage.get. open_binds.
    change (RedisStorage.key_name self' key) with (RedisStorage.key_name self key).
    simpl. rewrite (redis_get_set _ _ _ _ _ Hset), to_text_id. assumption.
  - intros k Hk. unfold RedisStorage.get. open_binds.
    change (RedisStorage.key_name self' k) with (RedisStorage.key_name self k).
    simpl. rewrite (redis_get_set_ne _ _ _ _ _ _ Hset); [reflexivity |].
    intros Heq. apply Hk. now apply key_name_inj in Heq.
Qed.

(** X4: A key the redis client does not hold reads as the default, without
    any decoding; so does a key after [delete(key)], which leaves the
    other keys as they were. *)
Theorem redis_missing_key_gives_default (self : RedisStorage.t R) (key : string)
  (dflt : pyval) :
  (redis_get (RedisStorage.redis self) (RedisStorage.key_name self key) = Ok None ->
   RedisStorage.get self key dflt = Ok dflt) /\
  (forall r' : R,
      redis_delete (RedisStorage.redis self) (RedisStorage.key_name self key) = Ok r' ->
      let self' := {| RedisStorage.redis := r';
                      RedisStorage.prefix := RedisStorage.prefix self |} in
      RedisStorage.delete self key = Ok self' /\
      RedisStorage.get self' key dflt = Ok dflt /\
      forall k : string, k <> key ->
        RedisStorage.get self' k dflt = RedisStorage.get self k dflt).
Proof.
  split.
  - intros Hget. unfold RedisStorage.get. open_binds. now rewrite Hget.
  - intros r' Hdel self'. repeat split.
    + unfold RedisStorage.delete. open_binds. now rewrite Hdel.
    + unfold RedisStorage.get. open_binds.
      change (RedisStorage.key_name self' key) with (RedisStorage.key_name self key).
      simpl. now rewrite (redis_get_delete _ _ _ Hdel).
    + intros k Hk. unfold RedisStorage.get. open_binds.
      change (RedisStorage.key_name self' k) with (RedisStorage.key_name self k).
      simpl. rewrite (redis_get_delete_ne _ _ _ _ Hdel); [reflexivity |].
      intros Heq. apply Hk. now apply key_name_inj in Heq.
Qed.

End RedisProperties.

#[global] Instance DictRedis_laws : RedisLaws DictRedis.t.
Proof.
  split.
  - intros r r' k v ex [= <-]. simpl. unfold DictRedis.get. simpl.
    now rewrite lookup_insert_eq.
  - intros r r' k k' v ex [= <-] Hk. simpl. unfold DictRedis.get. simpl.
    now rewrite lookup_insert_ne by congruence.
  - intros r r' k [= <-]. simpl. unfold DictRedis.get. simpl.
    now rewrite lookup_delete_eq.
  - intros r r' k k' [= <-] Hk. simpl. unfold DictRedis.get. simpl.
    now rewrite lookup_delete_ne by congruence.
Qed.

(** [True] stored with a TTL of 60 in an empty redis storage reads back. *)
Lemma redis_set_then_get_witness :
  let self' := {| RedisStorage.redis :=
                    {| DictRedis.entries := {[ "jdy_session:k" := ("true", PInt 60) ]} |};
                  RedisStorage.prefix := "jdy_session" |} in
  RedisStorage.set redis_store "k" (PBool true) (PInt 60) = Ok self' /\
  RedisStorage.get self' "k" PNone = Ok (PBool true) /\
  forall k : string, k <> "k" ->
    RedisStorage.get self' k PNone = RedisStorage.get redis_store k PNone.
Proof.
  apply (redis_set_then_get redis_store "k" (PBool true) (PInt 60) PNone "true");
    (reflexivity || discriminate).
Defined.

(** A key deleted from an empty redis storage reads as the default. *)
Lemma redis_missing_key_gives_default_witness :
  RedisStorage.get redis_store "k" (PInt 7) = Ok (PInt 7) /\
  RedisStorage.delete redis_store "k" = Ok redis_store.
Proof.
  destruct (redis_missing_key_gives_default redis_store "k" (PInt 7)) as [Hget Hdel].
  split; [apply Hget; reflexivity |].
  exact (proj1 (Hdel _ eq_refl)).
Defined.

(** ** The token manager: further properties *)

Section TokenManagerProperties.
Context {Store : Type} `{SessionStorage Store} (E : env).
Implicit Types w : world Store.

(** X5: Whatever comes of it (a token, a refusal, a failing transport, a
    malformed answer), a fetch makes exactly one HTTP call: a GET of the
    token URL with the client's four credentials as params. *)
Theorem fetch_makes_one_credential_call (self : JDYClient) w :
  http_log (fetch_access_token E self w).2
  = http_log w ++
    [HttpGet "https://api.kingdee.com/auth/user/access_token"
       (PDict (<["username" := PStr (username self)]>
              (<["password" := PStr (password self)]>
              (<["client_id" := PStr (client_id self)]>
              (<["client_secret" := PStr (client_secret self)]> ∅)))))].
Proof. exact (fetch_access_token_log E self w). Qed.

(** X6: When the transport fails the fetch ends at once: a response whose
    status is an error raises [JDYClientException(None, None)]; a failure
    of the call itself, or a body that is no JSON, raises the transport's
    own exception.  The session storage and [expires_at] stay. *)
Theorem fetch_transport_failure (self : JDYClient) (url : string) (params : pyval) w :
  (forall body : option pyval,
      server E (http_log w) (HttpGet url params) = Response false body ->
      _fetch_access_token E self url params w
      = (Raise (JDYClientException PNone (Msg PNone)), logged (HttpGet url params) w)) /\
  (server E (http_log w) (HttpGet url params) = ConnectionFailed ->
   _fetch_access_token E self url params w
   = (Raise RequestException, logged (HttpGet url params) w)) /\
  (server E (http_log w) (HttpGet url params) = Response true None ->
   _fetch_access_token E self url params w
   = (Raise JSONDecodeError, logged (HttpGet url params) w)).
Proof.
  repeat split; intros; unfold _fetch_access_token, http_call; open_binds;
    match goal with Hsrv : server _ _ _ = _ |- _ => rewrite Hsrv end; reflexivity.
Qed.

(** X7: An answer that is no failure but lacks ["data"], or whose ["data"]
    lacks ["access_token"], raises [KeyError]; nothing is stored and
    [expires_at] stays. *)
Theorem fetch_missing_token_raises_KeyError (self : JDYClient) (url : string)
  (params : pyval) w (r : gmap string pyval) :
  server E (http_log w) (HttpGet url params) = Response true (Some (PDict r)) ->
  from_option py_ne_zero false (r !! "errcode") = false ->
  r !! "data" = None \/
  (exists data : gmap string pyval,
      r !! "data" = Some (PDict data) /\ data !! "access_token" = None) ->
  _fetch_access_token E self url params w
  = (Raise KeyError, logged (HttpGet url params) w).
Proof.
  intros Hsrv Herr Hmissing.
  unfold _fetch_access_token, http_call. open_binds. rewrite Hsrv. simpl.
  destruct (r !! "errcode") as [x|]; simpl in *; [rewrite Herr; simpl |];
    (destruct Hmissing as [Hdata | (data & Hdata & Htok)]; rewrite Hdata; simpl;
     [reflexivity |];
     destruct (data !! "expires_in"); simpl; rewrite Htok; reflexivity).
Qed.

(** X8: An [expires_in] that is no number: the token is stored all the same,
    then the sum with the time raises [TypeError] and [expires_at] keeps
    its old value. *)
Theorem fetch_bad_expires_in_stores_token (self : JDYClient) (url : string)
  (params : pyval) w (r data : gmap string pyval) (token expires_in : pyval)
  (s' : Store) :
  server E (http_log w) (HttpGet url params) = Response true (Some (PDict r)) ->
  from_option py_ne_zero false (r !! "errcode") = false ->
  r !! "data" = Some (PDict data) ->
  data !! "access_token" = Some token ->
  data !! "expires_in" = Some expires_in ->
  (forall z : Z, expires_in <> PInt z) ->
  (forall b : bool, expires_in <> PBool b) ->
  storage_set (session w) (access_token_key self) token expires_in = Ok s' ->
  _fetch_access_token E self url params w
  = (Raise TypeError,
     {| session := s'; expires_at := expires_at w;
        http_log := http_log w ++ [HttpGet url params];
        ticks := Datatypes.S (ticks w) |}).
Proof.
  intros Hsrv Herr Hdata Htok Hexp Hint Hbool Hset.
  rewrite (_fetch_access_token_granted E self url params w r data token expires_in)
    by (try assumption; now rewrite Hexp).
  rewrite Hset. destruct expires_in; simpl; try reflexivity.
  - now destruct (Hbool b).
  - now destruct (Hint z).
Qed.

(** A token whose remaining time, as the getter computes it, exceeds 60
    is returned without an HTTP call. *)
Lemma access_token_cached (self : JDYClient) w (token : pyval) (e : Z)
  (remaining : spec_float) :
  storage_get (session w) (access_token_key self) PNone = Ok token ->
  py_truthy token = true ->
  expires_at w = Some e ->
  py_sub_int_float e (clock E (ticks w)) = Ok remaining ->
  py_float_gt remaining 60 = true ->
  (access_token E self w).1 = Ok token /\
  http_log (access_token E self w).2 = http_log w.
Proof.
  intros Hget Htruthy Hexp Hsub Hgt.
  unfold access_token, session_get, get_expires_at, time_time.
  open_binds. simpl. rewrite Hget, Htruthy, Hexp. simpl.
  destruct (e =? 0); [auto |]. simpl.
  unfold more_than_60s_left. rewrite Hsub, Hgt. auto.
Qed.

End TokenManagerProperties.

Lemma fetch_missing_token_raises_KeyError_witness :
  _fetch_access_token (env_with (answer (Response true (Some (PDict ∅))))) alice
    "https://api.kingdee.com/t" PNone (world_T1 (Some 5000))
  = (Raise KeyError, logged (HttpGet "https://api.kingdee.com/t" PNone) (world_T1 (Some 5000))).
Proof.
  apply (fetch_missing_token_raises_KeyError _ alice _ _ _ ∅);
    [reflexivity | reflexivity | left; reflexivity].
Defined.

(** [expires_in] sent as the string ["7200"]: ["T2"] replaces ["T1"],
    [expires_at] stays 5000, and the call raises. *)
Lemma fetch_bad_expires_in_stores_token_witness :
  _fetch_access_token
    (env_with (answer (Response true (Some (PDict
       (<["data" := PDict (<["access_token" := PStr "T2"]>
                          (<["expires_in" := PStr "7200"]> ∅))]> ∅))))))
    alice "https://api.kingdee.com/t" PNone (world_T1 (Some 5000))
  = (Raise TypeError,
     {| session := {| MemoryStorage._data := {[ access_token_key alice := PStr "T2" ]} |};
        expires_at := Some 5000;
        http_log := [HttpGet "https://api.kingdee.com/t" PNone];
        ticks := 1 |}).
Proof.
  apply (fetch_bad_expires_in_stores_token _ alice _ _ (world_T1 (Some 5000))
           (<["data" := PDict (<["access_token" := PStr "T2"]>
                              (<["expires_in" := PStr "7200"]> ∅))]> ∅)
           (<["access_token" := PStr "T2"]> (<["expires_in" := PStr "7200"]> ∅))
           (PStr "T2") (PStr "7200"));
    try reflexivity; intros; discriminate.
Defined.

Section MemoryTokenManager.
Context (E : env).
Implicit Types w : world MemoryStorage.t.

(** X9: A [null] token with a memory storage: the stored token stays as it
    was, for [set] drops [None], yet [expires_at] is set anew. *)
Theorem fetch_null_token_keeps_stored_token (self : JDYClient) (url : string)
  (params : pyval) w (r data : gmap string pyval) (expires_in : Z) :
  server E (http_log w) (HttpGet url params) = Response true (Some (PDict r)) ->
  from_option py_ne_zero false (r !! "errcode") = false ->
  r !! "data" = Some (PDict data) ->
  data !! "access_token" = Some PNone ->
  default (PInt 7200) (data !! "expires_in") = PInt expires_in ->
  _fetch_access_token E self url params w
  = (Ok (PDict r),
     {| session := session w;
        expires_at := Some (int_of_time (clock E (ticks w)) + expires_in);
        http_log := http_log w ++ [HttpGet url params];
        ticks := Datatypes.S (ticks w) |}).
Proof.
  intros Hsrv Herr Hdata Htok Hexp.
  now rewrite (_fetch_access_token_granted E self url params w r data PNone
                 (PInt expires_in)).
Qed.

(** The getter on the server's grant, when the memory storage holds
    nothing under the client's key, or something falsy. *)
Lemma access_token_after_grant (self : JDYClient) w (r data : gmap string pyval)
  (token : pyval) (expires_in : Z) :
  from_option py_truthy false (MemoryStorage._data (session w) !! access_token_key self)
    = false ->
  server E (http_log w) (token_call self) = Response true (Some (PDict r)) ->
  from_option py_ne_zero false (r !! "errcode") = false ->
  r !! "data" = Some (PDict data) ->
  data !! "access_token" = Some token ->
  token <> PNone ->
  default (PInt 7200) (data !! "expires_in") = PInt expires_in ->
  access_token E self w
  = (Ok token,
     {| session := {| MemoryStorage._data :=
                        <[access_token_key self := token]>
                          (MemoryStorage._data (session w)) |};
        expires_at := Some (int_of_time (clock E (ticks w)) + expires_in);
        http_log := http_log w ++ [token_call self];
        ticks := Datatypes.S (ticks w) |}).
Proof.
  intros Hmissing Hsrv Herr Hdata Htok Hnone Hexp.
  unfold access_token, session_get, fetch_access_token. open_binds.
  cbn [storage_get MemoryStorage_storage MemoryStorage.get].
  assert (Hfalsy : py_truthy (default PNone
            (MemoryStorage._data (session w) !! access_token_key self)) = false).
  { destruct (MemoryStorage._data (session w) !! access_token_key self);
      simpl in *; [assumption | reflexivity]. }
  rewrite Hfalsy.
  pose proof (_fetch_access_token_granted E self _ _ w r data token (PInt expires_in)
                Hsrv Herr Hdata Htok Hexp) as Hfetch.
  unfold token_call in Hsrv.
  change (<["username":=PStr (username self)]> _) with
    (<["username":=PStr (username self)]>
       (<["password":=PStr (password self)]>
          (<["client_id":=PStr (client_id self)]>
             (<["client_secret":=PStr (client_secret self)]> (∅ : gmap string pyval)))))
    in Hfetch.
  rewrite Hfetch. simpl.
  destruct token; try congruence; simpl; unfold MemoryStorage.get; simpl;
    now rewrite lookup_insert_eq.
Qed.

(** X10: With nothing usable cached in a memory storage, the getter fetches
    and returns the token the server granted, now stored under the
    client's key, with [expires_at] set. *)
Theorem access_token_fetches_when_missing (self : JDYClient) w
  (r data : gmap string pyval) (token : pyval) (expires_in : Z) :
  from_option py_truthy false (MemoryStorage._data (session w) !! access_token_key self)
    = false ->
  server E (http_log w) (token_call self) = Response true (Some (PDict r)) ->
  from_option py_ne_zero false (r !! "errcode") = false ->
  r !! "data" = Some (PDict data) ->
  data !! "access_token" = Some token ->
  token <> PNone ->
  default (PInt 7200) (data !! "expires_in") = PInt expires_in ->
  let w' := (access_token E self w).2 in
  (access_token E self w).1 = Ok token /\
  storage_get (session w') (access_token_key self) PNone = Ok token /\
  expires_at w' = Some (int_of_time (clock E (ticks w)) + expires_in) /\
  http_log w' = http_log w ++ [token_call self].
Proof.
  intros Hmissing Hsrv Herr Hdata Htok Hnone Hexp.
  rewrite (access_token_after_grant self w r data token expires_in) by assumption.
  simpl. repeat split. unfold MemoryStorage.get. simpl. now rewrite lookup_insert_eq.
Qed.

(** X11: Two calls of the getter in a row, starting with nothing usable
    cached: when the float difference of the [expires_at] the first call
    set and the clock reading of the second call exceeds 60, both calls
    return the granted token and the second makes no HTTP call. *)
Theorem second_call_uses_cached_token (self : JDYClient) w
  (r data : gmap string pyval) (token : pyval) (expires_in : Z)
  (remaining : spec_float) :
  from_option py_truthy false (MemoryStorage._data (session w) !! access_token_key self)
    = false ->
  server E (http_log w) (token_call self) = Response true (Some (PDict r)) ->
  from_option py_ne_zero false (r !! "errcode") = false ->
  r !! "data" = Some (PDict data) ->
  data !! "access_token" = Some token ->
  py_truthy token = true ->
  default (PInt 7200) (data !! "expires_in") = PInt expires_in ->
  py_sub_int_float (int_of_time (clock E (ticks w)) + expires_in)
    (clock E (Datatypes.S (ticks w))) = Ok remaining ->
  py_float_gt remaining 60 = true ->
  (access_token_times E 2 self w).1 = [Ok token; Ok token] /\
  http_log (access_token_times E 2 self w).2 = http_log w ++ [token_call self].
Proof.
  intros Hmissing Hsrv Herr Hdata Htok Htruthy Hexp Hsub Hgt.
  assert (Hnone : token <> PNone) by (intros ->; discriminate).
  simpl.
  rewrite (access_token_after_grant self w r data token expires_in) by assumption.
  cbn [fst snd].
  match goal with
  | |- context [access_token E self ?w1] =>
      destruct (access_token_cached E self w1 token
                  (int_of_time (clock E (ticks w)) + expires_in) remaining)
        as [Hout Hlog];
        [ simpl; unfold MemoryStorage.get; simpl; now rewrite lookup_insert_eq
        | assumption | reflexivity | exact Hsub | exact Hgt | ];
        destruct (access_token E self w1) as [o w2]; simpl in *; subst o
  end.
  split; [reflexivity | assumption].
Qed.

End MemoryTokenManager.

(** A grant whose token is [null]: ["T1"] stays stored and [expires_at]
    moves from 5000 to 8200. *)
Lemma fetch_null_token_keeps_stored_token_witness :
  _fetch_access_token
    (env_with (answer (Response true (Some (PDict
       (<["data" := PDict (<["access_token" := PNone]> ∅)]> ∅))))))
    alice "https://api.kingdee.com/t" PNone (world_T1 (Some 5000))
  = (Ok (PDict (<["data" := PDict (<["access_token" := PNone]> ∅)]> ∅)),
     {| session := store_T1; expires_at := Some 8200;
        http_log := [HttpGet "https://api.kingdee.com/t" PNone]; ticks := 1 |}).
Proof.
  apply (fetch_null_token_keeps_stored_token
           (env_with (answer (Response true (Some (PDict
              (<["data" := PDict (<["access_token" := PNone]> ∅)]> ∅))))))
           alice _ _ (world_T1 (Some 5000))
           (<["data" := PDict (<["access_token" := PNone]> ∅)]> ∅)
           (<["access_token" := PNone]> ∅) 7200); reflexivity.
Defined.

(** A fresh client on an empty memory storage: the getter brings ["T1"]. *)
Lemma access_token_fetches_when_missing_witness :
  (access_token (env_with (serve "T1" payload)) alice
     (fresh_world MemoryStorage.__init__)).1 = Ok (PStr "T1") /\
  http_log (access_token (env_with (serve "T1" payload)) alice
              (fresh_world MemoryStorage.__init__)).2 = [token_call alice].
Proof.
  destruct (access_token_fetches_when_missing (env_with (serve "T1" payload)) alice
              (fresh_world MemoryStorage.__init__)
              (<["errcode" := PInt 0]>
                 (<["data" := PDict (<["access_token" := PStr "T1"]> ∅)]> ∅))
              (<["access_token" := PStr "T1"]> ∅) (PStr "T1") 7200)
    as (Hout & _ & _ & Hlog); try reflexivity; [discriminate |].
  split; [exact Hout | exact Hlog].
Defined.

(** The token granted at 1000.5 s for 7200 s is still good at 2000 s. *)
Lemma second_call_uses_cached_token_witness :
  (access_token_times (env_later (serve "T1" payload)) 2 alice
     (fresh_world MemoryStorage.__init__)).1 = [Ok (PStr "T1"); Ok (PStr "T1")] /\
  http_log (access_token_times (env_later (serve "T1" payload)) 2 alice
              (fresh_world MemoryStorage.__init__)).2 = [token_call alice].
Proof.
  apply (second_call_uses_cached_token (env_later (serve "T1" payload)) alice
           (fresh_world MemoryStorage.__init__)
           (<["errcode" := PInt 0]>
              (<["data" := PDict (<["access_token" := PStr "T1"]> ∅)]> ∅))
           (<["access_token" := PStr "T1"]> ∅) (PStr "T1") 7200
           (float_of_Z 6200)); vm_compute; reflexivity.
Defined.

(** ** What a request leaves alone *)

Section Keeps.
Context {Store : Type} (R : relation (world Store)) `{!PreOrder R}.

Lemma keeps_ret {A} (a : A) : keeps R (mret a).
Proof. intros w. reflexivity. Qed.

Lemma keeps_raise {A} (e : exn) : keeps (A := A) R (raise e).
Proof. intros w. reflexivity. Qed.

Lemma keeps_pure {A} (o : outcome A) : keeps R (pure o).
Proof. intros w. reflexivity. Qed.

Lemma keeps_bind {A B} (m : M Store A) (k : A -> M Store B) :
  keeps R m -> (forall a, keeps R (k a)) -> keeps R (m ≫= k).
Proof.
  intros Hm Hk w. specialize (Hm w). unfold mbind, M_bind.
  destruct (m w) as [[a|e] w1]; simpl in *; [| assumption].
  etransitivity; [exact Hm | apply Hk].
Qed.

End Keeps.

(** Proves that a computation keeps a relation, one bind or branch at a
    time; what the primitive operations keep is taken from the context. *)
Ltac solve_keeps :=
  repeat first
    [ solve [apply keeps_ret; typeclasses eauto]
    | solve [apply keeps_raise; typeclasses eauto]
    | solve [apply keeps_pure; typeclasses eauto]
    | match goal with Hk : context [keeps] |- _ => apply Hk end
    | apply keeps_bind; [typeclasses eauto | | intros ?]
    | match goal with
      | |- forall _, _ => intros ?
      | |- keeps _ (if ?b then _ else _) => destruct b
      | |- keeps _ (match ?x with _ => _ end) => destruct x
      end ].

Section FetchKeeps.
Context {Store : Type} `{SessionStorage Store} (E : env).
Context (R : relation (world Store)) `{!PreOrder R} (self : JDYClient).
Hypothesis Hcall : forall ev, keeps R (http_call E ev).
Hypothesis Htime : keeps R (time_time E).
Hypothesis Hexpires : forall e, keeps R (set_expires_at e).
Hypothesis Hset : forall value ttl, keeps R (session_set (access_token_key self) value ttl).

(** What the HTTP call, the clock reading and the writes of the client's
    own token and of [expires_at] keep, a fetch keeps. *)
Lemma keeps_fetch_access_token : keeps R (fetch_access_token E self).
Proof. unfold fetch_access_token, _fetch_access_token. solve_keeps. Qed.

End FetchKeeps.

Section RequestKeeps.
Context {Store : Type} `{SessionStorage Store} (E : env).
Context (R : relation (world Store)) `{!PreOrder R} (self : JDYClient).
Hypothesis Hrequest : forall method url params json,
  keeps R (http_call E (HttpRequest method url params json)).
Hypothesis Htime : keeps R (time_time E).
Hypothesis Hfetch : keeps R (fetch_access_token E self).

Lemma keeps_session_get (key : string) (dflt : pyval) :
  keeps R (session_get (Store := Store) key dflt).
Proof. intros w. reflexivity. Qed.

Lemma keeps_get_expires_at : keeps R (get_expires_at (Store := Store)).
Proof. intros w. reflexivity. Qed.

Lemma keeps_access_token : keeps R (access_token E self).
Proof.
  pose proof keeps_session_get. pose proof keeps_get_expires_at.
  unfold access_token. solve_keeps.
Qed.

Lemma keeps_handle_result rec (res : pyval) (method url : string)
  (rp : option (pyval -> pyval)) (ar : bool) (kw : kwargs) :
  (forall m u a k, keeps R (rec m u a k)) ->
  keeps R (_handle_result E rec self res method url rp ar kw).
Proof.
  intros Hrec. pose proof keeps_session_get.
  unfold _handle_result. solve_keeps.
Qed.

(** What the resource calls, the clock readings and the fetches keep, a
    request keeps. *)
Lemma keeps_request (fuel : nat) (method url_or_endpoint : string) (ar : bool)
  (kw : kwargs) :
  keeps R (_request E fuel self method url_or_endpoint ar kw).
Proof.
  revert method url_or_endpoint ar kw.
  induction fuel as [|fuel IH]; intros method url_or_endpoint ar kw.
  - apply keeps_raise; typeclasses eauto.
  - pose proof keeps_access_token. pose proof keeps_handle_result.
    cbn [_request]. solve_keeps.
Qed.

End RequestKeeps.

#[global] Instance same_elsewhere_preorder (key : string) : PreOrder (same_elsewhere key).
Proof.
  split.
  - intros w k Hk. reflexivity.
  - intros w1 w2 w3 H12 H23 k Hk. now rewrite H23, H12.
Qed.

#[global] Instance unchanged_without_fetch_preorder {Store : Type} :
  PreOrder (unchanged_without_fetch (Store := Store)).
Proof.
  split.
  - intros w. exists []. rewrite app_nil_r. auto.
  - intros w1 w2 w3 (t1 & Hlog1 & H1) (t2 & Hlog2 & H2). exists (t1 ++ t2).
    split; [now rewrite Hlog2, Hlog1, app_assoc |].
    rewrite fetches_app. intros Hnone.
    destruct H1 as [Hs1 He1]; [lia |]. destruct H2 as [Hs2 He2]; [lia |].
    split; congruence.
Qed.

(** X12: A request of a client on a memory storage writes under the client's
    own key only: whatever the server answers, every other key of the
    storage, another client's token say, holds after the request what it
    held before. *)
Theorem request_touches_only_own_key (E : env) (fuel : nat) (self : JDYClient)
  (method url_or_endpoint : string) (ar : bool) (kw : kwargs)
  (w : world MemoryStorage.t) (k : string) :
  k <> access_token_key self ->
  MemoryStorage._data
    (session (_request E fuel self method url_or_endpoint ar kw w).2) !! k
  = MemoryStorage._data (session w) !! k.
Proof.
  intros Hk.
  apply (keeps_request E (same_elsewhere (access_token_key self)) self); [..| exact Hk].
  - intros m u p j w1 k1 Hk1. unfold http_call. now destruct (server E _ _).
  - intros w1 k1 Hk1. reflexivity.
  - apply (keeps_fetch_access_token E (same_elsewhere (access_token_key self)) self).
    + intros ev w1 k1 Hk1. unfold http_call. now destruct (server E _ _).
    + intros w1 k1 Hk1. reflexivity.
    + intros e w1 k1 Hk1. reflexivity.
    + intros value ttl w1 k1 Hk1. unfold session_set. simpl.
      destruct value; simpl; try reflexivity; now rewrite lookup_insert_ne by congruence.
Qed.

(** [alice]'s request, on the storage she shares with [bob], refreshes
    her token and leaves his. *)
Lemma request_touches_only_own_key_witness :
  MemoryStorage._data
    (session (_request (env_with serve_expired) 2 alice "get" ACCOUNTS true
                (accounts_kwargs "T1") (fresh_world shared_store)).2)
    !! access_token_key bob
  = Some (PStr "B1").
Proof.
  etransitivity.
  - apply (request_touches_only_own_key (env_with serve_expired) 2 alice).
    discriminate.
  - reflexivity.
Defined.

(** X13: The cached token and [expires_at] change through a credential
    exchange and in no other way: a request in whose HTTP calls there is
    no token fetch leaves the session storage and [expires_at] as they
    were. *)
Theorem request_without_fetch_changes_nothing {Store : Type} `{SessionStorage Store}
  (E : env) (fuel : nat) (self : JDYClient) (method url_or_endpoint : string)
  (ar : bool) (kw : kwargs) (w : world Store) :
  exists tr : list event,
    http_log (_request E fuel self method url_or_endpoint ar kw w).2 = http_log w ++ tr /\
    (fetches tr = 0%nat ->
     session (_request E fuel self method url_or_endpoint ar kw w).2 = session w /\
     expires_at (_request E fuel self method url_or_endpoint ar kw w).2 = expires_at w).
Proof.
  apply (keeps_request E unchanged_without_fetch self).
  - intros m u p j w1. exists [HttpRequest m u p j].
    unfold http_call. destruct (server E _ _); simpl; auto.
  - intros w1. exists []. simpl. rewrite app_nil_r. auto.
  - intros w1. exists [token_call self]. split; [apply fetch_access_token_log |].
    discriminate.
Qed.

(** ** The request executor: further properties *)

Section ExecutorProperties.
Context {Store : Type} `{SessionStorage Store} (E : env).
Implicit Types w : world Store.
Implicit Types rec : string -> string -> bool -> kwargs -> M Store pyval.

(** [_request] when the params need no token: they hold one, or are no
    dict.  One resource call with the params as given, then the reading
    of its answer. *)
Lemma _request_with_params (fuel : nat) (self : JDYClient)
  (method url_or_endpoint : string) (ar : bool) (kw : kwargs) (p : pyval) w :
  kw_params kw = Some p ->
  match p with PDict d => is_Some (d !! "access_token") | _ => True end ->
  (startswith_http url_or_endpoint = true -> kw_api_base_url kw = None) ->
  let url := resolved_url url_or_endpoint kw in
  let ev := HttpRequest method url p (kw_json kw) in
  _request E (Datatypes.S fuel) self method url_or_endpoint ar kw w
  = match server E (http_log w) ev with
    | ConnectionFailed => (Raise RequestException, logged ev w)
    | Response false _ =>
        (Raise (JDYClientException PNone (Msg PNone)), logged ev w)
    | Response true None => (Raise JSONDecodeError, logged ev w)
    | Response true (Some body) =>
        match py_contains "code" body with
        | Raise e => (Raise e, logged ev w)
        | Ok false => (Raise (JDYClientException PNone (StrOf body)), logged ev w)
        | Ok true =>
            _handle_result E (_request E fuel self) self body method url
              (kw_result_processor kw) ar
              {| kw_params := Some p; kw_json := kw_json kw;
                 kw_api_base_url := None; kw_result_processor := None |}
              (logged ev w)
        end
    end.
Proof.
  intros Hparams Htoken Hbase url ev. subst url ev. unfold resolved_url.
  cbn [_request]. rewrite Hparams. cbn [default from_option id].
  assert (Hstep :
    (match p with
     | PDict d =>
         if bool_decide (is_Some (d !! "access_token"))
         then mret p
         else token ← access_token E self; mret (PDict (<["access_token" := token]> d))
     | _ => mret p
     end : M Store pyval) = mret p).
  { destruct p; try reflexivity. now rewrite bool_decide_eq_true_2. }
  rewrite Hstep. clear Hstep.
  destruct (startswith_http url_or_endpoint) eqn:Habs; cbn [negb];
    [rewrite (Hbase eq_refl) |];
    unfold http_call, logged; open_binds;
    (destruct (server E _ _) as [|[|] [body|]]; try reflexivity;
     simpl; destruct (py_contains "code" body) as [[|]|]; reflexivity).
Qed.

(** X14: [_request] when the params are a dict without a token, or are not
    given: the token getter runs first, and the call goes on as if the
    caller had put its token among the params; when the getter raises, no
    resource call is made. *)
Theorem request_injects_token (fuel : nat) (self : JDYClient)
  (method url_or_endpoint : string) (ar : bool) (kw : kwargs)
  (d : gmap string pyval) w :
  default (PDict ∅) (kw_params kw) = PDict d ->
  d !! "access_token" = None ->
  _request E (Datatypes.S fuel) self method url_or_endpoint ar kw w
  = match access_token E self w with
    | (Raise e, w0) => (Raise e, w0)
    | (Ok token, w0) =>
        _request E (Datatypes.S fuel) self method url_or_endpoint ar
          {| kw_params := Some (PDict (<["access_token" := token]> d));
             kw_json := kw_json kw; kw_api_base_url := kw_api_base_url kw;
             kw_result_processor := kw_result_processor kw |} w0
    end.
Proof.
  intros Hparams Htoken.
  assert (Hrun : forall {A B C} (m : M Store A) (f : A -> M Store B)
                        (g : B -> M Store C) w1,
    ((m ≫= f) ≫= g) w1
    = match m w1 with
      | (Ok a, w0) => (f a ≫= g) w0
      | (Raise e, w0) => (Raise e, w0)
      end).
  { intros A B C m f g w1. unfold mbind, M_bind.
    destruct (m w1) as [[a|e] w0]; reflexivity. }
  cbn [_request]. rewrite Hparams, Htoken.
  rewrite bool_decide_eq_false_2 by (intros [? ?]; discriminate).
  rewrite Hrun.
  destruct (access_token E self w) as [[token|e] w0]; [| reflexivity].
  cbn [default from_option id kw_params kw_json kw_api_base_url kw_result_processor].
  rewrite lookup_insert_eq.
  rewrite bool_decide_eq_true_2 by eauto.
  reflexivity.
Qed.

(** X15: Failures of a resource call end the request at once, whatever the
    retry flags: an error status raises [JDYClientException(None, None)];
    a failure of the call itself, or a body that is no JSON, raises the
    transport's own exception; a JSON dict without ["code"] raises
    [JDYClientException(None, str(body))].  One HTTP call was made. *)
Theorem request_failures_end_the_call (fuel : nat) (self : JDYClient)
  (method url_or_endpoint : string) (ar : bool) (kw : kwargs) (p : pyval) w :
  kw_params kw = Some p ->
  match p with PDict d => is_Some (d !! "access_token") | _ => True end ->
  (startswith_http url_or_endpoint = true -> kw_api_base_url kw = None) ->
  let ev := HttpRequest method (resolved_url url_or_endpoint kw) p (kw_json kw) in
  let result := _request E (Datatypes.S fuel) self method url_or_endpoint ar kw w in
  (forall body, server E (http_log w) ev = Response false body ->
     result = (Raise (JDYClientException PNone (Msg PNone)), logged ev w)) /\
  (server E (http_log w) ev = ConnectionFailed ->
     result = (Raise RequestException, logged ev w)) /\
  (server E (http_log w) ev = Response true None ->
     result = (Raise JSONDecodeError, logged ev w)) /\
  (forall body : gmap string pyval,
     server E (http_log w) ev = Response true (Some (PDict body)) ->
     body !! "code" = None ->
     result = (Raise (JDYClientException PNone (StrOf (PDict body))), logged ev w)).
Proof.
  intros Hparams Htoken Hbase ev result. subst result.
  rewrite (_request_with_params fuel self method url_or_endpoint ar kw p w)
    by assumption.
  fold ev. repeat split.
  - intros body Hsrv. now rewrite Hsrv.
  - intros Hsrv. now rewrite Hsrv.
  - intros Hsrv. now rewrite Hsrv.
  - intros body Hsrv Hcode. rewrite Hsrv. simpl. now rewrite Hcode.
Qed.

(** X16: When the params hold a token, or are no dict, the first HTTP call of
    a request is the resource call itself: to the resolved URL, with the
    caller's method and JSON body and the params as the caller gave them.
    At most one more resource call and one token fetch follow. *)
Theorem request_sends_callers_params (fuel : nat) (self : JDYClient)
  (method url_or_endpoint : string) (ar : bool) (kw : kwargs) (p : pyval) w :
  kw_params kw = Some p ->
  match p with PDict d => is_Some (d !! "access_token") | _ => True end ->
  (startswith_http url_or_endpoint = true -> kw_api_base_url kw = None) ->
  exists tr : list event,
    http_log (_request E (Datatypes.S fuel) self method url_or_endpoint ar kw w).2
    = http_log w
      ++ HttpRequest method (resolved_url url_or_endpoint kw) p (kw_json kw) :: tr /\
    at_most 1 1 tr.
Proof.
  intros Hparams Htoken Hbase.
  rewrite (_request_with_params fuel self method url_or_endpoint ar kw p w)
    by assumption.
  set (ev := HttpRequest method (resolved_url url_or_endpoint kw) p (kw_json kw)).
  assert (Hnil : at_most 1 1 []) by (split; [unfold requests | unfold fetches]; simpl; lia).
  assert (Hlogged : http_log (logged ev w) = http_log w ++ [ev]) by reflexivity.
  destruct (server E (http_log w) ev) as [|[|] [body|]];
    try (exists []; split; [exact Hlogged | exact Hnil]).
  destruct (py_contains "code" body) as [[|]|];
    try (exists []; split; [exact Hlogged | exact Hnil]).
  destruct (emits_handle_result E (_request E fuel self) 1 0 self body method
              (resolved_url url_or_endpoint kw) (kw_result_processor kw) ar
              {| kw_params := Some p; kw_json := kw_json kw;
                 kw_api_base_url := None; kw_result_processor := None |}
              (fun m u k d => emits_request_with_token E fuel self m u k d)
              (logged ev w)) as (tr & Hlog & Hbound).
  exists tr. split; [| exact Hbound].
  rewrite Hlog, Hlogged, <- app_assoc. reflexivity.
Qed.

Lemma silent_handle_result_client_no_retry rec (self : JDYClient) (res : pyval)
  (method url : string) (rp : option (pyval -> pyval)) (ar : bool) (kw : kwargs) :
  auto_retry self = false ->
  silent (_handle_result E rec self res method url rp ar kw).
Proof.
  intros Hauto. unfold _handle_result.
  do 3 (apply silent_bind; [solve_silent | intros ?]).
  apply silent_bind; [solve_silent | intros failed].
  destruct failed; [| solve_silent].
  do 2 (apply silent_bind; [solve_silent | intros ?]).
  rewrite Hauto. simpl. solve_silent.
Qed.

(** X17: A client constructed with [auto_retry=False] never retries: whatever
    the server answers, 4010 too, and whatever the call's own flag, a
    request makes at most one resource call and at most one token fetch,
    the getter's. *)
Theorem client_without_auto_retry_calls_once (fuel : nat) (self : JDYClient)
  (method url_or_endpoint : string) (ar : bool) (kw : kwargs) :
  auto_retry self = false ->
  emits (at_most 1 1) (_request E fuel self method url_or_endpoint ar kw).
Proof.
  intros Hauto.
  destruct fuel as [|fuel]; [apply silent_emits; solve_silent |].
  apply (emits_request_level E fuel 1 0 0); [intros; lia |].
  intros. now apply silent_emits, silent_handle_result_client_no_retry.
Qed.

(** X18: [_handle_result] turns the code into an int before it reads it: a
    code that [int()] makes 0 (the string ["0"], [False]) is a success,
    and the dict returned holds the int 0 as its code; a code [int()]
    refuses ([None], a list, a string that is no number) ends the call
    with [int()]'s exception. *)
Theorem handle_result_converts_code rec (self : JDYClient) (d : gmap string pyval)
  (v : pyval) (method url : string) (ar : bool) (kw : kwargs) w :
  d !! "code" = Some v ->
  (py_int (int_of_str E) v = Ok 0 ->
   _handle_result E rec self (PDict d) method url None ar kw w
   = (Ok (PDict (<["code" := PInt 0]> d)), w)) /\
  (forall e : exn,
      py_int (int_of_str E) v = Raise e ->
      _handle_result E rec self (PDict d) method url None ar kw w = (Raise e, w)) /\
  (v = PNone ->
   _handle_result E rec self (PDict d) method url None ar kw w = (Raise TypeError, w)).
Proof.
  intros Hcode.
  assert (Hraise : forall e, py_int (int_of_str E) v = Raise e ->
            _handle_result E rec self (PDict d) method url None ar kw w = (Raise e, w)).
  { intros e Hint. unfold _handle_result. open_binds. simpl.
    rewrite Hcode. simpl. now rewrite Hint. }
  repeat split.
  - intros Hint. now rewrite (_handle_result_dict E rec self d v 0).
  - exact Hraise.
  - intros ->. now apply Hraise.
Qed.

End ExecutorProperties.

(** ** Every call of a request *)

Section AllCalls.
Context {Store : Type} `{SessionStorage Store} (E : env).
Context (P : event -> Prop).
Implicit Types w : world Store.

Lemma emits_all_silent {A} (m : M Store A) : silent m -> emits (Forall P) m.
Proof.
  intros Hm w. exists []. rewrite app_nil_r. split; [apply Hm | constructor].
Qed.

Lemma emits_all_bind {A B} (m : M Store A) (k : A -> M Store B) :
  emits (Forall P) m -> (forall a, emits (Forall P) (k a)) ->
  emits (Forall P) (m ≫= k).
Proof.
  intros Hm Hk w. destruct (Hm w) as (t1 & Hlog1 & HP).
  unfold mbind, M_bind. destruct (m w) as [[a|e] w1]; simpl in *.
  - destruct (Hk a w1) as (t2 & Hlog2 & HQ). exists (t1 ++ t2). split.
    + now rewrite Hlog2, Hlog1, app_assoc.
    + now apply Forall_app.
  - exists t1. auto.
Qed.

Lemma emits_all_bind_silent {A B} (m : M Store A) (k : A -> M Store B) :
  silent m -> (forall a, emits (Forall P) (k a)) -> emits (Forall P) (m ≫= k).
Proof. intros Hm. apply emits_all_bind. now apply emits_all_silent. Qed.

Lemma emits_all_call (ev : event) :
  P ev -> emits (Forall P) (http_call (Store := Store) E ev).
Proof.
  intros Hev w. exists [ev]. split; [apply http_call_log | now repeat constructor].
Qed.

Lemma emits_all_ret_bind {A B} (a : A) (k : A -> M Store B) :
  emits (Forall P) (k a) -> emits (Forall P) (mret a ≫= k).
Proof. intros Hk w. exact (Hk w). Qed.

Lemma emits_all_bind_assoc {A B C} (m : M Store A) (f : A -> M Store B)
  (g : B -> M Store C) :
  emits (Forall P) m -> (forall a, emits (Forall P) (f a ≫= g)) ->
  emits (Forall P) ((m ≫= f) ≫= g).
Proof.
  intros Hm Hk w. destruct (Hm w) as (t1 & Hlog1 & HP).
  unfold mbind, M_bind in *. destruct (m w) as [[a|e] w1]; simpl in *.
  - destruct (Hk a w1) as (t2 & Hlog2 & HQ). exists (t1 ++ t2). split.
    + now rewrite Hlog2, Hlog1, app_assoc.
    + now apply Forall_app.
  - exists t1. auto.
Qed.

Lemma emits_all_fetch_access_token (self : JDYClient) :
  P (token_call self) -> emits (Forall P) (fetch_access_token E self).
Proof.
  intros Hev w. exists [token_call self].
  split; [apply fetch_access_token_log | now repeat constructor].
Qed.

Lemma emits_all_access_token (self : JDYClient) :
  P (token_call self) -> emits (Forall P) (access_token E self).
Proof.
  intros Hev. unfold access_token.
  apply emits_all_bind_silent; [solve_silent | intros token].
  apply emits_all_bind_silent; [solve_silent | intros cached].
  destruct cached; [apply emits_all_silent; solve_silent |].
  apply emits_all_bind; [now apply emits_all_fetch_access_token |].
  intros _. apply emits_all_silent. solve_silent.
Qed.

End AllCalls.

Section RequestCalls.
Context {Store : Type} `{SessionStorage Store} (E : env).
Context (self : JDYClient) (method url : string) (json : option pyval)
        (d : gmap string pyval).
Implicit Types w : world Store.

Lemma call_of_token_call : call_of self method url json d (token_call self).
Proof. reflexivity. Qed.

Lemma emits_calls_handle_result
  (rec : string -> string -> bool -> kwargs -> M Store pyval) (res : pyval)
  (rp : option (pyval -> pyval)) (ar : bool) (kw : kwargs) :
  (forall k, kwargs_carry json d k ->
             emits (Forall (call_of self method url json d)) (rec method url false k)) ->
  kwargs_carry json d kw ->
  emits (Forall (call_of self method url json d))
    (_handle_result E rec self res method url rp ar kw).
Proof.
  intros Hrec (Hjson & Hbase & pd & Hparams & Hpd). unfold _handle_result.
  do 3 (apply emits_all_bind_silent; [solve_silent | intros ?]).
  apply emits_all_bind_silent; [solve_silent | intros failed].
  destruct failed; [| apply emits_all_silent; solve_silent].
  do 2 (apply emits_all_bind_silent; [solve_silent | intros ?]).
  destruct (auto_retry self && ar && _); [| apply emits_all_silent; solve_silent].
  apply emits_all_bind;
    [apply emits_all_fetch_access_token, call_of_token_call | intros _].
  apply emits_all_bind_silent; [solve_silent | intros token].
  rewrite Hparams. intros w. apply Hrec.
  repeat split; try assumption.
  exists (<["access_token" := token]> pd). split; [reflexivity |].
  intros k Hk. rewrite lookup_insert_ne by congruence. now apply Hpd.
Qed.

(** Every HTTP call of a request is the credential exchange or a
    resource call to the one URL, with the caller's method and JSON body,
    a token among its params and the caller's other params as given. *)
Lemma emits_calls_request (fuel : nat) (url_or_endpoint : string) (ar : bool)
  (kw : kwargs) :
  kw_json kw = json ->
  (exists pd : gmap string pyval,
      default (PDict ∅) (kw_params kw) = PDict pd /\
      forall k : string, k <> "access_token" -> pd !! k = d !! k) ->
  resolved_url url_or_endpoint kw = url ->
  startswith_http url = true ->
  (startswith_http url_or_endpoint = true -> kw_api_base_url kw = None) ->
  emits (Forall (call_of self method url json d))
    (_request E fuel self method url_or_endpoint ar kw).
Proof.
  revert url_or_endpoint ar kw.
  induction fuel as [|fuel IH]; intros url_or_endpoint ar kw Hjson (pd & Hparams & Hpd)
    Hurl Habs Hbase.
  { apply emits_all_silent. solve_silent. }
  cbn [_request]. rewrite Hparams.
  assert (Hstep : forall p : pyval,
    carries d p ->
    emits (Forall (call_of self method url json d))
      (res ← match (if negb (startswith_http url_or_endpoint) then None
                    else kw_api_base_url kw) with
             | Some _ => raise TypeError
             | None =>
                 http_call E
                   (HttpRequest method
                      (if negb (startswith_http url_or_endpoint)
                       then default API_BASE_URL (kw_api_base_url kw) +:+ url_or_endpoint
                       else url_or_endpoint) p (kw_json kw))
             end;
       if negb res.1 then raise (JDYClientException PNone (Msg PNone)) else
       res ← pure (res_json res.2);
       has_code ← pure (py_contains "code" res);
       if negb has_code then raise (JDYClientException PNone (StrOf res)) else
       _handle_result E (_request E fuel self) self res method
         (if negb (startswith_http url_or_endpoint)
          then default API_BASE_URL (kw_api_base_url kw) +:+ url_or_endpoint
          else url_or_endpoint)
         (kw_result_processor kw) ar
         {| kw_params := Some p; kw_json := kw_json kw;
            kw_api_base_url := if negb (startswith_http url_or_endpoint) then None
                               else kw_api_base_url kw;
            kw_result_processor := None |})).
  { intros p Hp.
    assert (Hresolved :
      (if negb (startswith_http url_or_endpoint)
       then default API_BASE_URL (kw_api_base_url kw) +:+ url_or_endpoint
       else url_or_endpoint) = url).
    { rewrite <- Hurl. unfold resolved_url.
      now destruct (startswith_http url_or_endpoint). }
    assert (Hnobase :
      (if negb (startswith_http url_or_endpoint) then None else kw_api_base_url kw)
      = None).
    { destruct (startswith_http url_or_endpoint); [now apply Hbase | reflexivity]. }
    rewrite Hresolved, Hnobase.
    apply emits_all_bind; [apply emits_all_call; repeat split; assumption |].
    intros res. destruct (negb res.1); [apply emits_all_silent; solve_silent |].
    apply emits_all_bind_silent; [solve_silent | intros body].
    apply emits_all_bind_silent; [solve_silent | intros has_code].
    destruct (negb has_code); [apply emits_all_silent; solve_silent |].
    destruct Hp as (pd' & -> & _ & Hpd').
    apply emits_calls_handle_result.
    - intros k (Hkjson & Hkbase & pk & Hkparams & Hpk).
      apply IH; try assumption.
      + exists pk. rewrite Hkparams. auto.
      + unfold resolved_url. now rewrite Habs.
      + intros _. assumption.
    - repeat split; try assumption. exists pd'. auto. }
  destruct (bool_decide (is_Some (pd !! "access_token"))) eqn:Htoken.
  - apply bool_decide_eq_true in Htoken.
    apply emits_all_ret_bind, Hstep. exists pd. auto.
  - apply emits_all_bind_assoc;
      [apply emits_all_access_token, call_of_token_call | intros token].
    apply emits_all_ret_bind, Hstep.
    exists (<["access_token" := token]> pd). split; [reflexivity |]. split.
    + rewrite lookup_insert_eq. eauto.
    + intros k Hk. rewrite lookup_insert_ne by congruence. now apply Hpd.
Qed.

End RequestCalls.

Lemma emits_and {Store A : Type} (P Q : list event -> Prop) (m : M Store A) :
  emits P m -> emits Q m -> emits (fun tr => P tr /\ Q tr) m.
Proof.
  intros HP HQ w. destruct (HP w) as (t1 & Hlog1 & H1).
  destruct (HQ w) as (t2 & Hlog2 & H2).
  assert (t1 = t2) as -> by (rewrite Hlog1 in Hlog2; now apply app_inv_head in Hlog2).
  eauto.
Qed.

(** X19: Every HTTP call a request makes, the retried one included, is the
    credential exchange or a resource call to the one resolved URL with
    the caller's method and JSON body; its params hold a token and, but
    for the token, exactly what the caller gave. *)
Theorem request_calls_keep_callers_arguments {Store : Type} `{SessionStorage Store}
  (E : env) (fuel : nat) (self : JDYClient) (method url_or_endpoint : string)
  (ar : bool) (kw : kwargs) (pd : gmap string pyval) :
  default (PDict ∅) (kw_params kw) = PDict pd ->
  startswith_http (resolved_url url_or_endpoint kw) = true ->
  (startswith_http url_or_endpoint = true -> kw_api_base_url kw = None) ->
  emits
    (Forall (call_of self method (resolved_url url_or_endpoint kw) (kw_json kw) pd))
    (_request E fuel self method url_or_endpoint ar kw).
Proof.
  intros Hparams Habs Hbase.
  apply emits_calls_request; try assumption; try reflexivity. eauto.
Qed.

(** X20: The two resource methods: whatever the server answers, the accounts
    method makes at most two resource calls, each a GET of the accounts
    URL without a body, and the voucher method at most two, each a POST of
    the voucher URL with the two periods as JSON body; every one of them
    carries a token, [sid] and [dbId]; their other calls are credential
    exchanges, two at most. *)
Theorem resource_methods_calls {Store : Type} `{SessionStorage Store} (E : env)
  (self : JDYClient) (from_period to_period : pyval) :
  emits (fun tr =>
           at_most 2 2 tr /\
           Forall (call_of self "get" "https://api.kingdee.com/jdyaccouting/account"
                     None (tenant_params self)) tr)
    (accounting_get_accounts E self) /\
  emits (fun tr =>
           at_most 2 2 tr /\
           Forall (call_of self "post" "https://api.kingdee.com/jdyaccouting/voucherlist"
                     (Some (PDict (<["fromPeriod" := from_period]>
                                  (<["toPeriod" := to_period]> ∅))))
                     (tenant_params self)) tr)
    (accounting_get_voucher_list E self from_period to_period).
Proof.
  split; apply emits_and; try apply emits_request;
    apply emits_calls_request; try reflexivity;
    try (intros; reflexivity); eexists; split; [reflexivity | auto | reflexivity | auto].
Qed.

(** The accounts call of [alice] on a server that rejects her first
    token: both resource calls go to the accounts URL with her [sid] and
    [dbId]. *)
Lemma request_calls_keep_callers_arguments_witness :
  exists tr : list event,
    http_log (_request (env_with serve_expired) 2 alice "get" ACCOUNTS true
                accounts_kwargs_bare (world_T1 None)).2
    = http_log (world_T1 None) ++ tr /\
    Forall (call_of alice "get" (resolved_url ACCOUNTS accounts_kwargs_bare) None
              (<["sid" := PStr "A"]> (<["dbId" := PStr "B"]> ∅))) tr.
Proof.
  apply (request_calls_keep_callers_arguments (env_with serve_expired) 2 alice "get"
           ACCOUNTS true accounts_kwargs_bare); [reflexivity | reflexivity |].
  discriminate.
Defined.

(** Without a token among the params the request is the getter and then
    the request with the token: here the cached ["T1"]. *)
Lemma request_injects_token_witness :
  _request (env_with (serve "T2" payload)) 2 alice "get" ACCOUNTS true
    accounts_kwargs_bare (world_T1 None)
  = _request (env_with (serve "T2" payload)) 2 alice "get" ACCOUNTS true
      (accounts_kwargs "T1") (world_T1 None).
Proof.
  etransitivity.
  - apply (request_injects_token (env_with (serve "T2" payload)) 1 alice "get"
             ACCOUNTS true accounts_kwargs_bare
             (<["sid" := PStr "A"]> (<["dbId" := PStr "B"]> ∅))); reflexivity.
  - reflexivity.
Defined.

(** A server that answers with an error status: one call, then
    [JDYClientException(None, None)]. *)
Lemma request_failures_end_the_call_witness :
  _request (env_with (answer (Response false None))) 2 alice "get" ACCOUNTS true
    (accounts_kwargs "T1") (world_T1 None)
  = (Raise (JDYClientException PNone (Msg PNone)),
     logged (accounts_call "T1") (world_T1 None)).
Proof.
  destruct (request_failures_end_the_call (env_with (answer (Response false None))) 1
              alice "get" ACCOUNTS true (accounts_kwargs "T1")
              (PDict (<["access_token" := PStr "T1"]>
                     (<["sid" := PStr "A"]> (<["dbId" := PStr "B"]> ∅))))
              (world_T1 None) eq_refl ltac:(simpl; eauto) ltac:(discriminate))
    as [Hstatus _].
  exact (Hstatus None eq_refl).
Defined.

(** The caller's token ["mine"] is sent as it is, though ["T1"] is
    cached. *)
Lemma request_sends_callers_params_witness :
  exists tr : list event,
    http_log (_request (env_with (serve "T2" payload)) 2 alice "get" ACCOUNTS true
                (accounts_kwargs "mine") (world_T1 None)).2
    = http_log (world_T1 None) ++ accounts_call "mine" :: tr /\
    at_most 1 1 tr.
Proof.
  exact (request_sends_callers_params (env_with (serve "T2" payload)) 1 alice "get"
           ACCOUNTS true (accounts_kwargs "mine")
           (PDict (<["access_token" := PStr "mine"]>
                  (<["sid" := PStr "A"]> (<["dbId" := PStr "B"]> ∅))))
           (world_T1 None) eq_refl ltac:(simpl; eauto) ltac:(discriminate)).
Defined.

(** [carol], who has [auto_retry=False], on a server that answers 4010:
    one resource call and no fetch. *)
Lemma client_without_auto_retry_calls_once_witness :
  exists tr : list event,
    http_log (_request (env_with (serve "T2" (failure_reply 4010))) 2 carol "get"
                ACCOUNTS true (accounts_kwargs "T1") (fresh_world store_T1)).2
    = http_log (fresh_world store_T1) ++ tr /\
    at_most 1 1 tr.
Proof.
  apply (client_without_auto_retry_calls_once
           (env_with (serve "T2" (failure_reply 4010))) 2 carol "get" ACCOUNTS true
           (accounts_kwargs "T1")). reflexivity.
Defined.

(** The code [false] is read as 0: the answer counts as a success and
    comes back with the int 0 as its code. *)
Lemma handle_result_converts_code_witness :
  _handle_result (env_with (serve "T2" payload))
    (_request (env_with (serve "T2" payload)) 1 alice) alice
    (PDict (<["code" := PBool false]> ∅)) "get" (API_BASE_URL +:+ ACCOUNTS) None true
    (accounts_kwargs "T1") (world_T1 None)
  = (Ok (PDict (<["code" := PInt 0]> ∅)), world_T1 None).
Proof.
  etransitivity.
  - exact (proj1 (handle_result_converts_code (env_with (serve "T2" payload))
                    (_request (env_with (serve "T2" payload)) 1 alice) alice
                    (<["code" := PBool false]> ∅) (PBool false) "get"
                    (API_BASE_URL +:+ ACCOUNTS) true (accounts_kwargs "T1")
                    (world_T1 None) eq_refl) eq_refl).
  - reflexivity.
Defined.
